(** * The to-do request handlers of [sam-backend-todo-app/src/todos.js]

    A shallow embedding of the four Lambda handlers ([createTodoHandler],
    [getTodosHandler], [updateTodoHandler], [deleteTodoHandler]) together
    with a model of the DynamoDB table they talk to, and the properties
    the design document states about them.

    Layout:
    - JavaScript values, truthiness, [typeof], strings ([trim], [includes]);
    - the effects of a handler (clock, uuid, [docClient.send]) as a small
      free monad [prog] with [try_catch];
    - the handlers, line by line;
    - [run], which plays a handler against any store, and the table of
      [tests/utils/setupDynamo.js] (partition key [userId], sort key
      [todoId], both strings) with the item operations of DynamoDB and
      its limits on the size of keys, items and query results;
    - names for the responses and commands, a host and data for examples;
    - the properties: first those that hold for every store, then those
      about the state of the table. *)

From Stdlib Require Import PrimFloat Ascii String.
From stdpp Require Import gmap strings list.

Open Scope string_scope.
Set Warnings "-register-all".

(** ** JavaScript values *)

(** The values a handler meets: what [JSON.parse] produces, [undefined]
    for an absent property, and the built-in method that reading a
    property of a primitive can reach through its prototype.  A string
    stands for the sequence of its code units (code points U+0000 to
    U+00FF); a number is a binary64 float, as in JavaScript; an object is
    the list of its own properties, read by first match; a function is
    known by its name. *)
Inductive jsval : Type :=
  | JUndefined
  | JNull
  | JBool (b : bool)
  | JNum (f : float)
  | JStr (s : string)
  | JArr (xs : list jsval)
  | JObj (fields : list (string * jsval))
  | JFun (name : string).

(** What is thrown and caught: an [Error] object with its [name] and
    [message]. *)
Record Error := mkError { name : string; message : string }.

(** [!!v]: every value is truthy except [undefined], [null], [false],
    [0], [-0], [NaN] and the empty string. *)
Definition truthy (v : jsval) : bool :=
  match v with
  | JUndefined | JNull => false
  | JBool b => b
  | JNum f => negb (PrimFloat.is_zero f || PrimFloat.is_nan f)
  | JStr s => negb (s =? "")
  | JArr _ | JObj _ | JFun _ => true
  end.

Definition typeof (v : jsval) : string :=
  match v with
  | JUndefined => "undefined"
  | JNull => "object"
  | JBool _ => "boolean"
  | JNum _ => "number"
  | JStr _ => "string"
  | JArr _ | JObj _ => "object"
  | JFun _ => "function"
  end.

(** [o[k]] on the own properties of an object. *)
Fixpoint assoc (k : string) (fs : list (string * jsval)) : jsval :=
  match fs with
  | [] => JUndefined
  | (k', v) :: rest => if k =? k' then v else assoc k rest
  end.

(** [o[k] = v]: overwrite the property in place, or add it last. *)
Fixpoint set_prop (k : string) (v : jsval) (fs : list (string * jsval))
  : list (string * jsval) :=
  match fs with
  | [] => [(k, v)]
  | (k', v') :: rest =>
      if k =? k' then (k, v) :: rest else (k', v') :: set_prop k v rest
  end.

(** [v.k] when [v] is neither [null] nor [undefined], for the property
    names read in this development: those the handlers read from a
    request or a reply ([authorizer], [claims], [sub], [id], [title],
    [description], [status], [Attributes], [Items]), the names of the
    parameters of a command or of a request of the browser, and the names
    of the attributes of an item.  On an object it is the own property.
    Of these names the built-in prototypes define one: [sub], a method of
    [String.prototype], so that ["abc".sub] is that function; the others,
    and [sub] on a number, a boolean, an array or a function, read as
    [undefined].  The built-in properties under other names ([length],
    [toString], ...) are read nowhere and are not described. *)
Definition member (v : jsval) (k : string) : jsval :=
  match v with
  | JObj fs => assoc k fs
  | JStr _ => if k =? "sub" then JFun "sub" else JUndefined
  | _ => JUndefined
  end.

Definition nullish (v : jsval) : bool :=
  match v with
  | JUndefined | JNull => true
  | _ => false
  end.

(** [v?.k] *)
Definition opt_member (v : jsval) (k : string) : jsval :=
  if nullish v then JUndefined else member v k.

(** [a || b] *)
Definition js_or (a b : jsval) : jsval := if truthy a then a else b.

(** ** Strings *)

(** White space and line terminators among the code units below 256:
    TAB, LF, VT, FF, CR, SPACE and NO-BREAK SPACE. *)
Definition is_space (c : ascii) : bool :=
  let n := nat_of_ascii c in
  ((9 <=? n) && (n <=? 13) || (n =? 32) || (n =? 160))%nat.

Fixpoint trim_start (s : string) : string :=
  match s with
  | "" => ""
  | String c rest => if is_space c then trim_start rest else s
  end.

Fixpoint trim_end (s : string) : string :=
  match s with
  | "" => ""
  | String c rest =>
      let rest' := trim_end rest in
      if is_space c && (rest' =? "") then "" else String c rest'
  end.

(** [s.trim()] *)
Definition trim (s : string) : string := trim_end (trim_start s).

(** [hay.includes(needle)] *)
Fixpoint includes (hay needle : string) : bool :=
  String.prefix needle hay
  || match hay with
     | "" => false
     | String _ rest => includes rest needle
     end.

(** [parts.join(sep)] *)
Definition join (sep : string) (parts : list string) : string :=
  String.concat sep parts.

(** ** Commands of the document client *)

(** [new PutCommand(params)] and its siblings: the command wraps the
    [params] object as the handler built it. *)
Inductive command : Type :=
  | PutCommand (params : jsval)
  | UpdateCommand (params : jsval)
  | DeleteCommand (params : jsval)
  | QueryCommand (params : jsval).

(** ** Handler programs *)

(** What a handler does besides computing: draw a uuid, read the clock,
    and send one command to the store, whose promise is then fulfilled
    with an output object or rejected with an error.  [Throw] is a raised
    exception on its way to the enclosing [catch]. *)
Inductive prog (A : Type) : Type :=
  | Ret (a : A)
  | Throw (e : Error)
  | Uuidv4 (k : string -> prog A)
  | DateNow (k : string -> prog A)
  | Send (c : command) (k : Error + jsval -> prog A).

Arguments Ret {A} a.
Arguments Throw {A} e.
Arguments Uuidv4 {A} k.
Arguments DateNow {A} k.
Arguments Send {A} c k.

Fixpoint bind {A B : Type} (p : prog A) (f : A -> prog B) : prog B :=
  match p with
  | Ret a => f a
  | Throw e => Throw e
  | Uuidv4 k => Uuidv4 (fun id => bind (k id) f)
  | DateNow k => DateNow (fun ts => bind (k ts) f)
  | Send c k => Send c (fun r => bind (k r) f)
  end.

(** [try { p } catch (error) { h error }] *)
Fixpoint try_catch {A : Type} (p : prog A) (h : Error -> prog A) : prog A :=
  match p with
  | Ret a => Ret a
  | Throw e => h e
  | Uuidv4 k => Uuidv4 (fun id => try_catch (k id) h)
  | DateNow k => DateNow (fun ts => try_catch (k ts) h)
  | Send c k => Send c (fun r => try_catch (k r) h)
  end.

Declare Scope prog_scope.
Delimit Scope prog_scope with prog.
Notation "x <- p ;; q" := (bind p (fun x => q))
  (at level 100, p at next level, right associativity) : prog_scope.
Open Scope prog_scope.

(** [uuidv4()] *)
Definition uuidv4 : prog string := Uuidv4 Ret.

(** [new Date().toISOString()] *)
Definition now_iso : prog string := DateNow Ret.

(** [await docClient.send(c)]: a rejection is thrown at the [await]. *)
Definition await_send (c : command) : prog jsval :=
  Send c (fun r => match r with
                   | inl e => Throw e
                   | inr data => Ret data
                   end).

Definition show_nullish (v : jsval) : string :=
  match v with
  | JNull => "null"
  | _ => "undefined"
  end.

(** [v.k], which throws a [TypeError] when [v] is [null] or [undefined]
    (also the reading done by the destructuring [const { k } = v]). *)
Definition get_member (v : jsval) (k : string) : prog jsval :=
  if nullish v
  then Throw (mkError "TypeError"
                ("Cannot read properties of " +:+ show_nullish v
                 +:+ " (reading '" +:+ k +:+ "')"))
  else Ret (member v k).

(** [const { k } = v]: destructuring [null] or [undefined] throws. *)
Definition destructure (v : jsval) (k : string) : prog jsval :=
  if nullish v
  then Throw (mkError "TypeError"
                ("Cannot destructure property '" +:+ k
                 +:+ "' of 'requestBody' as it is " +:+ show_nullish v +:+ "."))
  else Ret (member v k).

(** ** The host environment *)

(** The built-ins the handlers call and the environment they read.
    [JSON_parse] takes the value passed to [JSON.parse] and yields the
    parsed value, or the message of the [SyntaxError] it throws;
    [JSON_stringify] renders a response body; [TODOS_TABLE_NAME] is
    [process.env.TODOS_TABLE_NAME].  Two facts of the language are kept:
    [JSON.parse(undefined)] throws (the text "undefined" is not JSON) and
    [JSON.parse(null)] is [null]. *)
Class Host : Type := {
  JSON_parse : jsval -> string + jsval;
  JSON_stringify : jsval -> string;
  TODOS_TABLE_NAME : jsval;
  JSON_parse_undefined : exists m, JSON_parse JUndefined = inl m;
  JSON_parse_null : JSON_parse JNull = inr JNull
}.

(** The Lambda event, with the three properties the handlers read; an
    absent property is [undefined]. *)
Module Event.
Record t : Type := mk {
  requestContext : jsval;
  pathParameters : jsval;
  body : jsval
}.
End Event.

(** The object [generateResponse] builds. *)
Record response : Type := mkResponse {
  statusCode : Z;
  headers : list (string * string);
  body : string
}.

(** The update under construction in [updateTodoHandler]: the array and
    the two objects the handler fills field by field. *)
Record builder : Type := mkBuilder {
  updateExpressions : list string;
  expressionAttributeValues : list (string * jsval);
  expressionAttributeNames : list (string * jsval)
}.

(** [updateExpressions.push(e)] *)
Definition push_expression (e : string) (b : builder) : builder :=
  {| updateExpressions := updateExpressions b ++ [e];
     expressionAttributeValues := expressionAttributeValues b;
     expressionAttributeNames := expressionAttributeNames b |}.

(** [expressionAttributeNames[k] = v] *)
Definition set_name (k : string) (v : jsval) (b : builder) : builder :=
  {| updateExpressions := updateExpressions b;
     expressionAttributeValues := expressionAttributeValues b;
     expressionAttributeNames := set_prop k v (expressionAttributeNames b) |}.

(** [expressionAttributeValues[k] = v] *)
Definition set_value (k : string) (v : jsval) (b : builder) : builder :=
  {| updateExpressions := updateExpressions b;
     expressionAttributeValues := set_prop k v (expressionAttributeValues b);
     expressionAttributeNames := expressionAttributeNames b |}.

Definition is_undefined (v : jsval) : bool :=
  match v with
  | JUndefined => true
  | _ => false
  end.

(** [v.trim() === ''], reached only behind [typeof v !== 'string ||']. *)
Definition trims_to_empty (v : jsval) : bool :=
  match v with
  | JStr s => trim s =? ""
  | _ => false
  end.

(** [xs.includes(v)] on an array of strings: only an equal string is
    found. *)
Definition array_includes (xs : list string) (v : jsval) : bool :=
  match v with
  | JStr s => existsb (String.eqb s) xs
  | _ => false
  end.

Definition message_body (m : string) : jsval := JObj [("message", JStr m)].

Section Handlers.

Context `{Host}.

(** [JSON.parse(text)] *)
Definition parse_json (text : jsval) : prog jsval :=
  match JSON_parse text with
  | inl m => Throw (mkError "SyntaxError" m)
  | inr v => Ret v
  end.

Definition generateResponse (statusCode : Z) (body : jsval) : response :=
  {| statusCode := statusCode;
     headers :=
       [("Content-Type", "application/json");
        ("Access-Control-Allow-Origin", "*");
        ("Access-Control-Allow-Methods", "GET,POST,PUT,DELETE,OPTIONS");
        ("Access-Control-Allow-Headers",
         "Content-Type,X-Amz-Date,Authorization,X-Api-Key,X-Amz-Security-Token")];
     body := JSON_stringify body |}.

Definition optionsHandler (event : Event.t) : prog response :=
  Ret (generateResponse 200 (JObj [])).

(** [event.requestContext?.authorizer?.claims?.sub] *)
Definition claimed_sub (event : Event.t) : jsval :=
  opt_member
    (opt_member (opt_member (Event.requestContext event) "authorizer") "claims")
    "sub".

Definition unauthorized : response :=
  generateResponse 401 (message_body "Unauthorized: User ID not found in token.").

Definition createTodoHandler (event : Event.t) : prog response :=
  try_catch
    (let userId := claimed_sub event in
     if negb (truthy userId) then Ret unauthorized
     else
       requestBody <- parse_json (Event.body event) ;;
       title <- destructure requestBody "title" ;;
       description <- destructure requestBody "description" ;;
       if negb (truthy title) || negb (typeof title =? "string")
          || trims_to_empty title
       then Ret (generateResponse 400
                   (message_body "Title is required and must be a non-empty string."))
       else if truthy description && negb (typeof description =? "string")
       then Ret (generateResponse 400 (message_body "Description must be a string."))
       else
         todoId <- uuidv4 ;;
         createdAt <- now_iso ;;
         let Item :=
           JObj [("userId", userId);
                 ("todoId", JStr todoId);
                 ("title", title);
                 ("description", js_or description (JStr ""));
                 ("status", JStr "pending");
                 ("createdAt", JStr createdAt);
                 ("updatedAt", JStr createdAt)] in
         let params := JObj [("TableName", TODOS_TABLE_NAME); ("Item", Item)] in
         _ <- await_send (PutCommand params) ;;
         Ret (generateResponse 201
                (JObj [("message", JStr "To-Do item created successfully.");
                       ("todo", member params "Item")])))
    (fun error =>
       Ret (generateResponse 500
              (message_body "Failed to create To-Do item. Please try again later."))).

Definition getTodosHandler (event : Event.t) : prog response :=
  try_catch
    (let userId := claimed_sub event in
     if negb (truthy userId) then Ret unauthorized
     else
       let params :=
         JObj [("TableName", TODOS_TABLE_NAME);
               ("KeyConditionExpression", JStr "userId = :u");
               ("ExpressionAttributeValues", JObj [(":u", userId)])] in
       data <- await_send (QueryCommand params) ;;
       Items <- get_member data "Items" ;;
       let todos := js_or Items (JArr []) in
       Ret (generateResponse 200 (JObj [("todos", todos)])))
    (fun error =>
       Ret (generateResponse 500
              (message_body "Failed to retrieve To-Do items. Please try again later."))).

(** The three validation blocks of [updateTodoHandler]: each either
    returns a response at once or hands on the builder. *)
Definition title_block (title : jsval) (b : builder) : response + builder :=
  if negb (is_undefined title) then
    let b := set_value ":t" title
               (set_name "#t" (JStr "title") (push_expression "#t = :t" b)) in
    if negb (typeof title =? "string") || trims_to_empty title
    then inl (generateResponse 400 (message_body "Title must be a non-empty string."))
    else inr b
  else inr b.

Definition description_block (description : jsval) (b : builder)
  : response + builder :=
  if negb (is_undefined description) then
    let b := set_value ":d" description
               (set_name "#d" (JStr "description") (push_expression "#d = :d" b)) in
    if negb (typeof description =? "string")
    then inl (generateResponse 400 (message_body "Description must be a string."))
    else inr b
  else inr b.

Definition status_block (status : jsval) (b : builder) : response + builder :=
  if negb (is_undefined status) then
    if negb (array_includes ["pending"; "completed"] status)
    then inl (generateResponse 400
                (message_body "Status must be 'pending' or 'completed'."))
    else inr (set_value ":s" status
                (set_name "#s" (JStr "status") (push_expression "#s = :s" b)))
  else inr b.

(** The [catch] of [updateTodoHandler]. *)
Definition update_catch (error : Error) : prog response :=
  if (name error =? "ValidationException")
     && includes (message error)
          "The provided key element does not match the schema"
  then Ret (generateResponse 400 (message_body "Invalid To-Do ID or data format."))
  else Ret (generateResponse 500
              (message_body "Failed to update To-Do item. Please try again later.")).

Definition updateTodoHandler (event : Event.t) : prog response :=
  try_catch
    (let userId := claimed_sub event in
     if negb (truthy userId) then Ret unauthorized
     else
       todoId <- get_member (Event.pathParameters event) "id" ;;
       if negb (truthy todoId)
       then Ret (generateResponse 400 (message_body "To-Do ID is required."))
       else
         requestBody <- parse_json (Event.body event) ;;
         title <- destructure requestBody "title" ;;
         description <- destructure requestBody "description" ;;
         status <- destructure requestBody "status" ;;
         match title_block title (mkBuilder [] [] []) with
         | inl r => Ret r
         | inr b =>
         match description_block description b with
         | inl r => Ret r
         | inr b =>
         match status_block status b with
         | inl r => Ret r
         | inr b =>
           ua <- now_iso ;;
           let b := set_value ":ua" (JStr ua)
                      (push_expression "updatedAt = :ua" b) in
           if (length (updateExpressions b) =? 0)%nat
           then Ret (generateResponse 400
                       (message_body "No valid fields provided for update."))
           else
             let params :=
               JObj [("TableName", TODOS_TABLE_NAME);
                     ("Key", JObj [("userId", userId); ("todoId", todoId)]);
                     ("UpdateExpression",
                      JStr ("SET " +:+ join ", " (updateExpressions b)));
                     ("ExpressionAttributeValues",
                      JObj (expressionAttributeValues b));
                     ("ReturnValues", JStr "ALL_NEW");
                     ("ExpressionAttributeNames",
                      JObj (expressionAttributeNames b))] in
             data <- await_send (UpdateCommand params) ;;
             Attributes <- get_member data "Attributes" ;;
             if negb (truthy Attributes)
             then Ret (generateResponse 404
                         (message_body
                            "To-Do item not found or unauthorized to update."))
             else Ret (generateResponse 200
                         (JObj [("message",
                                 JStr "To-Do item updated successfully.");
                                ("todo", Attributes)]))
         end end end)
    update_catch.

Definition deleteTodoHandler (event : Event.t) : prog response :=
  try_catch
    (let userId := claimed_sub event in
     if negb (truthy userId) then Ret unauthorized
     else
       todoId <- get_member (Event.pathParameters event) "id" ;;
       if negb (truthy todoId)
       then Ret (generateResponse 400 (message_body "To-Do ID is required."))
       else
         let params :=
           JObj [("TableName", TODOS_TABLE_NAME);
                 ("Key", JObj [("userId", userId); ("todoId", todoId)]);
                 ("ReturnValues", JStr "ALL_OLD")] in
         data <- await_send (DeleteCommand params) ;;
         Attributes <- get_member data "Attributes" ;;
         if negb (truthy Attributes)
         then Ret (generateResponse 404
                     (message_body
                        "To-Do item not found or unauthorized to delete."))
         else Ret (generateResponse 200
                     (message_body "To-Do item deleted successfully.")))
    (fun error =>
       Ret (generateResponse 500
              (message_body "Failed to delete To-Do item. Please try again later."))).

End Handlers.

(** ** Running a handler against a store *)

(** A store answers a command from its state: the promise of
    [docClient.send] is rejected with an error or fulfilled with an
    output object, and the state moves on. *)
Definition store_step (S : Type) : Type := command -> S -> (Error + jsval) * S.

(** What the clock and the uuid generator give during one invocation. *)
Record runtime : Type := mkRuntime {
  instant : string;
  fresh_uuid : string
}.

(** One invocation: what the handler returned (or the error that escaped
    it), the store afterwards, and the commands sent, in order. *)
Record outcome (A S : Type) : Type := mkOutcome {
  result : Error + A;
  final : S;
  sent : list command
}.

Arguments mkOutcome {A S} result final sent.
Arguments result {A S} o.
Arguments final {A S} o.
Arguments sent {A S} o.

Fixpoint run {A S : Type} (send : store_step S) (rt : runtime)
    (p : prog A) (s : S) : outcome A S :=
  match p with
  | Ret a => mkOutcome (inr a) s []
  | Throw e => mkOutcome (inl e) s []
  | Uuidv4 k => run send rt (k (fresh_uuid rt)) s
  | DateNow k => run send rt (k (instant rt)) s
  | Send c k =>
      let '(r, s') := send c s in
      let o := run send rt (k r) s' in
      mkOutcome (result o) (final o) (c :: sent o)
  end.

(** ** The DynamoDB table *)

(** The table created by [createTodosTable]: partition key [userId] and
    sort key [todoId], both of type S (string).  An item is the list of
    its attributes; the document client converts between JavaScript
    values and attribute values, which the model leaves implicit.
    Modelled: the item operations the handlers use ([PutItem],
    [UpdateItem] with a [SET] expression, [DeleteItem], [Query] on the
    partition key), each without a condition expression, since no handler
    sets one; the limits of the service on the size of a key (2048 bytes
    for the partition key, 1024 for the sort key), of an item (400 KB)
    and of the result of one [Query] (1 MB); and the replica an
    eventually consistent read is served from.  Not modelled: a service
    that is throttled or out of reach. *)
Abbreviation Table := (gmap (string * string) (list (string * jsval))).

(** Every item of the table carries its own key in its [userId] and
    [todoId] attributes. *)
Definition well_keyed (tbl : Table) : Prop :=
  forall u t it,
    tbl !! (u, t) = Some it ->
    assoc "userId" it = JStr u /\ assoc "todoId" it = JStr t.

(** What the documentation of the service leaves open.  [number_size] is
    the size in bytes of a number attribute (about one byte for two
    significant digits, plus one).  [replica tbl] is the table as the
    replica that serves an eventually consistent read has it when the
    table itself is [tbl]: it may lag behind, but it holds items under
    their own keys as the table does. *)
Class Service : Type := {
  number_size : float -> N;
  replica : Table -> Table;
  replica_keyed : forall tbl, well_keyed tbl -> well_keyed (replica tbl)
}.

Definition ValidationException (m : string) : Error :=
  mkError "ValidationException" m.

Definition key_mismatch : Error :=
  ValidationException "The provided key element does not match the schema".

(** *** Sizes and limits *)

(** The bytes of a string in UTF-8: one for a code unit below U+0080,
    two for the others (U+0080 to U+00FF). *)
Fixpoint utf8_length (s : string) : N :=
  match s with
  | "" => 0
  | String c rest =>
      (if (nat_of_ascii c <? 128)%nat then 1 else 2) + utf8_length rest
  end%N.

Definition max_partition_key : N := 2048.
Definition max_sort_key : N := 1024.

(** 400 KB for an item, names and values together. *)
Definition max_item_size : N := 409600.

(** 1 MB for the items one [Query] returns. *)
Definition max_page_size : N := 1048576.

Section Sizes.

Context `{Service}.

(** The size of an attribute value: the UTF-8 bytes of a string, one
    byte for a boolean or [null], and for a list or a map three bytes
    plus, for each element, one byte and its size (with the name, in a
    map). *)
Fixpoint value_size (v : jsval) : N :=
  match v with
  | JStr s => utf8_length s
  | JNum f => number_size f
  | JBool _ | JNull => 1
  | JArr xs => 3 + fold_right (fun x n => 1 + value_size x + n) 0 xs
  | JObj fs =>
      3 + fold_right
            (fun kv n => 1 + utf8_length (fst kv) + value_size (snd kv) + n) 0 fs
  | JUndefined | JFun _ => 0
  end%N.

(** The size of an item: the names and the values of its attributes. *)
Definition item_size (it : list (string * jsval)) : N :=
  fold_right (fun kv n => utf8_length (fst kv) + value_size (snd kv) + n)%N
    0%N it.

End Sizes.

(** A key within the limits of the service. *)
Definition key_fits (u t : string) : Prop :=
  (utf8_length u <= max_partition_key)%N /\ (utf8_length t <= max_sort_key)%N.

(** A value for the partition key: a string that is not empty and not
    above 2048 bytes. *)
Definition partition_key (u : string) : Error + string :=
  if u =? ""
  then inl (ValidationException
              "One or more parameter values are not valid. The AttributeValue for a key attribute cannot contain an empty string value.")
  else if negb (utf8_length u <=? max_partition_key)%N
  then inl (ValidationException
              "One or more parameter values were invalid: Size of hashkey has exceeded the maximum size limit of2048 bytes")
  else inr u.

(** The two key attributes of an item: strings that are not empty, the
    sort key not above 1024 bytes. *)
Definition key_of (u t : string) : Error + (string * string) :=
  match partition_key u with
  | inl e => inl e
  | inr _ =>
      if t =? ""
      then inl (ValidationException
                  "One or more parameter values are not valid. The AttributeValue for a key attribute cannot contain an empty string value.")
      else if negb (utf8_length t <=? max_sort_key)%N
      then inl (ValidationException
                  "One or more parameter values were invalid: Aggregated size of all range keys has exceeded the size limit of 1024 bytes")
      else inr (u, t)
  end.

(** The [Key] of [UpdateItem] and [DeleteItem] must give exactly the two
    key attributes, as strings within the limits.  (A property bound to a
    function is left out by the document client: such a key lacks an
    attribute.) *)
Definition primary_key (Key : jsval) : Error + (string * string) :=
  match Key with
  | JObj fs =>
      match assoc "userId" fs, assoc "todoId" fs with
      | JStr u, JStr t =>
          if negb (length fs =? 2)%nat then inl key_mismatch
          else key_of u t
      | _, _ => inl key_mismatch
      end
  | _ => inl key_mismatch
  end.

(** The key of the [Item] of [PutItem]. *)
Definition item_key (Item : jsval) : Error + (string * string) :=
  match Item with
  | JObj fs =>
      match assoc "userId" fs, assoc "todoId" fs with
      | JStr u, JStr t => key_of u t
      | JUndefined, _ | _, JUndefined | JFun _, _ | _, JFun _ =>
          inl (ValidationException
                 "One or more parameter values were invalid: Missing the key in the item")
      | _, _ =>
          inl (ValidationException
                 "One or more parameter values were invalid: Type mismatch for key")
      end
  | _ => inl (ValidationException "Item is required")
  end.

(** *** Expressions *)

(** The tokens of the expressions the handlers write: words (attribute
    names, [#name] and [:value] placeholders, keywords), [=] and [,]. *)
Inductive token : Type :=
  | TWord (w : string)
  | TEq
  | TComma.

Definition flush (cur : string) (ts : list token) : list token :=
  if cur =? "" then ts else TWord cur :: ts.

Fixpoint tokens (s : string) (cur : string) : list token :=
  match s with
  | "" => flush cur []
  | String c rest =>
      if Ascii.eqb c " " then flush cur (tokens rest "")
      else if Ascii.eqb c "," then flush cur (TComma :: tokens rest "")
      else if Ascii.eqb c "=" then flush cur (TEq :: tokens rest "")
      else tokens rest (cur +:+ String c "")
  end.

(** [path = operand {, path = operand}] *)
Fixpoint set_clauses (ts : list token) : option (list (string * string)) :=
  match ts with
  | TWord p :: TEq :: TWord v :: rest =>
      match rest with
      | [] => Some [(p, v)]
      | TComma :: rest' => cons (p, v) <$> set_clauses rest'
      | _ => None
      end
  | _ => None
  end.

(** The fragment of update expressions modelled: one [SET] clause whose
    actions assign a value placeholder to an attribute. *)
Definition parse_update (e : jsval) : option (list (string * string)) :=
  match e with
  | JStr s =>
      match tokens s "" with
      | TWord "SET" :: ts => set_clauses ts
      | _ => None
      end
  | _ => None
  end.

Definition starts_with (c : ascii) (s : string) : bool :=
  match s with
  | String c' _ => Ascii.eqb c c'
  | "" => false
  end.

(** An attribute written as [#name] stands for its entry in
    [ExpressionAttributeNames]. *)
Definition resolve_name (names : jsval) (p : string) : Error + string :=
  if starts_with "#" p then
    match member names p with
    | JStr a => inr a
    | _ => inl (ValidationException
                  ("Invalid UpdateExpression: An expression attribute name used in the document path is not defined; attribute name: " +:+ p))
    end
  else inr p.

(** A value written as [:name] stands for its entry in
    [ExpressionAttributeValues]. *)
Definition resolve_value (values : jsval) (v : string) : Error + jsval :=
  if starts_with ":" v then
    match member values v with
    | JUndefined | JFun _ =>
        inl (ValidationException
               ("Invalid UpdateExpression: An expression attribute value used in expression is not defined; attribute value: " +:+ v))
    | x => inr x
    end
  else inl (ValidationException "Invalid UpdateExpression: operand is not a value placeholder").

Definition is_key_attribute (a : string) : bool :=
  (a =? "userId") || (a =? "todoId").

(** The assignments of a [SET] clause, names and values resolved. *)
Fixpoint resolve_actions (names values : jsval) (cs : list (string * string))
  : Error + list (string * jsval) :=
  match cs with
  | [] => inr []
  | (p, v) :: rest =>
      match resolve_name names p with
      | inl e => inl e
      | inr a =>
          if is_key_attribute a
          then inl (ValidationException
                      ("One or more parameter values were invalid: Cannot update attribute " +:+ a +:+ ". This attribute is part of the key"))
          else
            match resolve_value values v with
            | inl e => inl e
            | inr x =>
                match resolve_actions names values rest with
                | inl e => inl e
                | inr acts => inr ((a, x) :: acts)
                end
            end
      end
  end.

Definition empty_object (v : jsval) : bool :=
  match v with
  | JObj [] => true
  | _ => false
  end.

Definition apply_actions (acts : list (string * jsval)) (it : list (string * jsval))
  : list (string * jsval) :=
  foldl (fun it '(a, x) => set_prop a x it) it acts.

(** *** Item operations *)

(** Items in ascending order of the sort key, as [Query] returns them. *)
Fixpoint insert_by_key (x : (string * string) * list (string * jsval))
    (l : list ((string * string) * list (string * jsval)))
  : list ((string * string) * list (string * jsval)) :=
  match l with
  | [] => [x]
  | y :: rest =>
      if String.leb (snd (fst x)) (snd (fst y)) then x :: l
      else y :: insert_by_key x rest
  end.

(** The partition of [u]: its entries by sort key, and its items. *)
Definition partition_entries (u : string) (tbl : Table)
  : list ((string * string) * list (string * jsval)) :=
  foldr insert_by_key [] (filter (fun e => fst (fst e) = u) (map_to_list tbl)).

Definition partition_items (u : string) (tbl : Table) : list jsval :=
  (fun e => JObj (snd e)) <$> partition_entries u tbl.

(** [ConsistentRead: true] *)
Definition consistent_read (params : jsval) : bool :=
  match member params "ConsistentRead" with
  | JBool true => true
  | _ => false
  end.

(** The key of an entry, as [LastEvaluatedKey] gives it. *)
Definition key_object (e : (string * string) * list (string * jsval)) : jsval :=
  JObj [("userId", JStr (fst (fst e))); ("todoId", JStr (snd (fst e)))].

Section Operations.

Context `{Service}.

(** [PutItem]: writes the item at its key, replacing what was there,
    unless the item is above 400 KB. *)
Definition ddb_put (params : jsval) (tbl : Table) : (Error + jsval) * Table :=
  match item_key (member params "Item"), member params "Item" with
  | inr k, JObj fs =>
      if (item_size fs <=? max_item_size)%N
      then (inr (JObj []), <[k := fs]> tbl)
      else (inl (ValidationException
                   "Item size has exceeded the maximum allowed size"), tbl)
  | inl e, _ => (inl e, tbl)
  | inr _, _ => (inl (ValidationException "Item is required"), tbl)
  end.

(** [UpdateItem] without a condition: edits the attributes of the item
    at the key, or adds a new item made of the key and the assigned
    attributes when the table has none there.  An empty
    [ExpressionAttributeNames] or [ExpressionAttributeValues] map is
    refused, and so is an update that would leave an item above 400 KB.
    [ReturnValues: 'ALL_NEW'] returns the item as written. *)
Definition ddb_update (params : jsval) (tbl : Table) : (Error + jsval) * Table :=
  if empty_object (member params "ExpressionAttributeNames")
  then (inl (ValidationException "ExpressionAttributeNames must not be empty"), tbl)
  else if empty_object (member params "ExpressionAttributeValues")
  then (inl (ValidationException "ExpressionAttributeValues must not be empty"), tbl)
  else
    match parse_update (member params "UpdateExpression") with
    | None => (inl (ValidationException "Invalid UpdateExpression"), tbl)
    | Some cs =>
        match resolve_actions (member params "ExpressionAttributeNames")
                (member params "ExpressionAttributeValues") cs with
        | inl e => (inl e, tbl)
        | inr acts =>
            match primary_key (member params "Key") with
            | inl e => (inl e, tbl)
            | inr (u, t) =>
                let old := tbl !! (u, t) in
                let base := default [("userId", JStr u); ("todoId", JStr t)] old in
                let new := apply_actions acts base in
                let data :=
                  match member params "ReturnValues", old with
                  | JStr "ALL_NEW", _ => JObj [("Attributes", JObj new)]
                  | JStr "ALL_OLD", Some it => JObj [("Attributes", JObj it)]
                  | _, _ => JObj []
                  end in
                if (item_size new <=? max_item_size)%N
                then (inr data, <[(u, t) := new]> tbl)
                else (inl (ValidationException
                             "Item size to update has exceeded the maximum allowed size"),
                      tbl)
            end
        end
    end.

(** [DeleteItem] without a condition: removes the item at the key, if
    any.  [ReturnValues: 'ALL_OLD'] returns the item removed; nothing is
    returned when there was none. *)
Definition ddb_delete (params : jsval) (tbl : Table) : (Error + jsval) * Table :=
  match primary_key (member params "Key") with
  | inl e => (inl e, tbl)
  | inr k =>
      let data :=
        match member params "ReturnValues", tbl !! k with
        | JStr "ALL_OLD", Some it => JObj [("Attributes", JObj it)]
        | _, _ => JObj []
        end in
      (inr data, delete k tbl)
  end.

(** The entries that go on reading while they fit in what is left of the
    page. *)
Fixpoint fill_page (budget : N)
    (entries : list ((string * string) * list (string * jsval)))
  : list ((string * string) * list (string * jsval)) :=
  match entries with
  | [] => []
  | e :: rest =>
      if (item_size (snd e) <=? budget)%N
      then e :: fill_page (budget - item_size (snd e)) rest
      else []
  end.

(** One page of a partition: its first entry, and those after it as long
    as the page stays within 1 MB. *)
Definition first_page (entries : list ((string * string) * list (string * jsval)))
  : list ((string * string) * list (string * jsval)) :=
  match entries with
  | [] => []
  | e :: rest => e :: fill_page (max_page_size - item_size (snd e)) rest
  end.

(** The items one [Query] returns of the partition of [u]. *)
Definition page_items (u : string) (view : Table) : list jsval :=
  (fun e => JObj (snd e)) <$> first_page (partition_entries u view).

(** The size of a partition: that of its items together. *)
Definition entries_size
    (entries : list ((string * string) * list (string * jsval))) : N :=
  fold_right (fun e n => item_size (snd e) + n)%N 0%N entries.

Definition partition_size (u : string) (tbl : Table) : N :=
  entries_size (partition_entries u tbl).

(** What one [Query] on the partition of [u] answers from the table it
    reads: the items of the first page and, when the partition goes on
    after it, the key to resume from. *)
Definition query_output (u : string) (view : Table) : jsval :=
  let entries := partition_entries u view in
  let page := first_page entries in
  JObj (("Items", JArr (page_items u view))
        :: match last page with
           | Some e =>
               if (length page <? length entries)%nat
               then [("LastEvaluatedKey", key_object e)]
               else []
           | None => []
           end).

(** [Query] with the key condition [userId = :u]: the first page of one
    partition, read from the table itself when [ConsistentRead] is set
    and from a replica otherwise. *)
Definition ddb_query (params : jsval) (tbl : Table) : (Error + jsval) * Table :=
  match member params "KeyConditionExpression" with
  | JStr e =>
      match tokens e "" with
      | [TWord a; TEq; TWord v] =>
          if negb (a =? "userId")
          then (inl (ValidationException
                       "Query condition missed key schema element: userId"), tbl)
          else
            match resolve_value (member params "ExpressionAttributeValues") v with
            | inr (JStr u) =>
                match partition_key u with
                | inl e => (inl e, tbl)
                | inr _ =>
                    let view := if consistent_read params then tbl else replica tbl in
                    (inr (query_output u view), tbl)
                end
            | inr _ =>
                (inl (ValidationException
                        "One or more parameter values were invalid: Condition parameter type does not match schema type"), tbl)
            | inl e => (inl e, tbl)
            end
      | _ => (inl (ValidationException "Invalid KeyConditionExpression"), tbl)
      end
  | _ => (inl (ValidationException "Invalid KeyConditionExpression"), tbl)
  end.

(** The store the handlers are deployed against. *)
Definition dynamodb : store_step Table :=
  fun c tbl =>
    match c with
    | PutCommand params => ddb_put params tbl
    | UpdateCommand params => ddb_update params tbl
    | DeleteCommand params => ddb_delete params tbl
    | QueryCommand params => ddb_query params tbl
    end.

End Operations.

(** ** Responses and commands by name *)

(** The responses the handlers build and the commands they send, named
    for the statements below; each is the expression the handler has in
    line. *)
Section Vocabulary.

Context `{Host}.

(** The responses of the catch-all branches. *)
Definition create_failed : response :=
  generateResponse 500
    (message_body "Failed to create To-Do item. Please try again later.").

Definition update_failed : response :=
  generateResponse 500
    (message_body "Failed to update To-Do item. Please try again later.").

Definition delete_failed : response :=
  generateResponse 500
    (message_body "Failed to delete To-Do item. Please try again later.").

Definition id_required : response :=
  generateResponse 400 (message_body "To-Do ID is required.").

Definition title_required : response :=
  generateResponse 400
    (message_body "Title is required and must be a non-empty string.").

Definition description_not_string : response :=
  generateResponse 400 (message_body "Description must be a string.").

(** The item [createTodoHandler] writes. *)
Definition new_item (userId : jsval) (todoId : string) (title description : jsval)
    (createdAt : string) : list (string * jsval) :=
  [("userId", userId);
   ("todoId", JStr todoId);
   ("title", title);
   ("description", js_or description (JStr ""));
   ("status", JStr "pending");
   ("createdAt", JStr createdAt);
   ("updatedAt", JStr createdAt)].

Definition put_params (item : list (string * jsval)) : jsval :=
  JObj [("TableName", TODOS_TABLE_NAME); ("Item", JObj item)].

Definition created (item : list (string * jsval)) : response :=
  generateResponse 201
    (JObj [("message", JStr "To-Do item created successfully.");
           ("todo", JObj item)]).

(** What the handler answers once the write has settled. *)
Definition create_response (item : list (string * jsval)) (r : Error + jsval)
  : response :=
  match r with
  | inl _ => create_failed
  | inr _ => created item
  end.

(** The command [updateTodoHandler] sends for a key and a finished
    builder. *)
Definition update_params (userId todoId : jsval) (b : builder) : jsval :=
  JObj [("TableName", TODOS_TABLE_NAME);
        ("Key", JObj [("userId", userId); ("todoId", todoId)]);
        ("UpdateExpression", JStr ("SET " +:+ join ", " (updateExpressions b)));
        ("ExpressionAttributeValues", JObj (expressionAttributeValues b));
        ("ReturnValues", JStr "ALL_NEW");
        ("ExpressionAttributeNames", JObj (expressionAttributeNames b))].

(** The timestamp the handler always adds last. *)
Definition stamp (ua : string) (b : builder) : builder :=
  set_value ":ua" (JStr ua) (push_expression "updatedAt = :ua" b).

(** The builder the three validation blocks leave, when none of them
    returns early. *)
Definition validated (requestBody : jsval) : response + builder :=
  match title_block (member requestBody "title") (mkBuilder [] [] []) with
  | inl r => inl r
  | inr b =>
      match description_block (member requestBody "description") b with
      | inl r => inl r
      | inr b => status_block (member requestBody "status") b
      end
  end.

Definition not_found_update : response :=
  generateResponse 404
    (message_body "To-Do item not found or unauthorized to update.").

Definition updated (Attributes : jsval) : response :=
  generateResponse 200
    (JObj [("message", JStr "To-Do item updated successfully.");
           ("todo", Attributes)]).

Definition invalid_key : response :=
  generateResponse 400 (message_body "Invalid To-Do ID or data format.").

(** A validation error of the store that reports a key which does not
    match the key schema of the table. *)
Definition key_schema_mismatch (e : Error) : bool :=
  (name e =? "ValidationException")
  && includes (message e) "The provided key element does not match the schema".

(** What the handler does with the settled promise of the update. *)
Definition update_reply (r : Error + jsval) : prog response :=
  match r with
  | inl e => update_catch e
  | inr data =>
      if nullish data
      then update_catch
             (mkError "TypeError"
                ("Cannot read properties of " +:+ show_nullish data
                 +:+ " (reading 'Attributes')"))
      else if negb (truthy (member data "Attributes")) then Ret not_found_update
      else Ret (updated (member data "Attributes"))
  end.

(** The response [update_reply] ends with. *)
Definition reply_response (r : Error + jsval) : response :=
  match r with
  | inl e => if key_schema_mismatch e then invalid_key else update_failed
  | inr data =>
      if nullish data then update_failed
      else if truthy (member data "Attributes")
      then updated (member data "Attributes")
      else not_found_update
  end.

Definition delete_params (userId todoId : jsval) : jsval :=
  JObj [("TableName", TODOS_TABLE_NAME);
        ("Key", JObj [("userId", userId); ("todoId", todoId)]);
        ("ReturnValues", JStr "ALL_OLD")].

Definition not_found_delete : response :=
  generateResponse 404
    (message_body "To-Do item not found or unauthorized to delete.").

Definition deleted : response :=
  generateResponse 200 (message_body "To-Do item deleted successfully.").

End Vocabulary.

(** ** A host and requests for the examples *)

Definition quote (s : string) : string :=
  String "034"%char (s +:+ String "034"%char "").

(** A serializer for the documents of the examples: strings without
    escapes, booleans, [null], arrays and objects (numbers and functions
    do not occur in them). *)
Fixpoint example_stringify (v : jsval) : string :=
  match v with
  | JUndefined | JNull | JNum _ | JFun _ => "null"
  | JBool true => "true"
  | JBool false => "false"
  | JStr s => quote s
  | JArr xs => "[" +:+ join "," (List.map example_stringify xs) +:+ "]"
  | JObj fs =>
      "{" +:+ join ","
                (List.map (fun kv => quote (fst kv) +:+ ":"
                                     +:+ example_stringify (snd kv)) fs)
          +:+ "}"
  end.

(** The request bodies of the examples. *)
Definition example_documents : list jsval :=
  [ JObj [("title", JStr "Buy milk")];
    JObj [("title", JStr "Buy milk"); ("description", JStr "two litres")];
    JObj [("title", JStr "Buy milk"); ("description", JNull)];
    JObj [("title", JStr "Buy milk"); ("description", JBool true)];
    JObj [("status", JStr "completed")];
    JObj [("priority", JStr "high")];
    JObj [] ].

(** A parser that knows the texts of [example_documents] and refuses
    every other text. *)
Definition example_parse (text : jsval) : string + jsval :=
  match text with
  | JNull => inr JNull
  | JStr s =>
      match List.find (fun d => example_stringify d =? s) example_documents with
      | Some d => inr d
      | None => inl "Unexpected token in JSON"
      end
  | _ => inl "Unexpected token in JSON"
  end.

Definition example_host : Host := {|
  JSON_parse := example_parse;
  JSON_stringify := example_stringify;
  TODOS_TABLE_NAME := JStr "Todos";
  JSON_parse_undefined := ex_intro _ "Unexpected token in JSON" eq_refl;
  JSON_parse_null := eq_refl
|}.

(** A service for the examples: numbers at ten bytes (none occurs in
    them) and replicas that have caught up with the table. *)
Definition example_service : Service := {|
  number_size := fun _ => 10%N;
  replica := fun tbl => tbl;
  replica_keyed := fun tbl Hwk => Hwk
|}.

(** The event API Gateway hands over for a caller whose token carries
    [sub], on the route with path parameters [path] and body [body]. *)
Definition request (sub : jsval) (path : jsval) (body : jsval) : Event.t :=
  Event.mk
    (JObj [("authorizer", JObj [("claims", JObj [("sub", sub)])])])
    path body.

Definition example_runtime : runtime :=
  mkRuntime "2024-05-01T10:00:00.000Z" "3f2b8c1e-0000-4000-8000-000000000001".

Definition body_of (document : jsval) : jsval := JStr (example_stringify document).

Definition buy_milk : jsval := JObj [("title", JStr "Buy milk")].

Definition todo_X : jsval := JObj [("id", JStr "X")].

(** The item of owner U1 under id X. *)
Definition milk_item : list (string * jsval) :=
  [("userId", JStr "U1"); ("todoId", JStr "X"); ("title", JStr "Buy milk");
   ("description", JStr ""); ("status", JStr "pending");
   ("createdAt", JStr "2024-04-30T08:00:00.000Z");
   ("updatedAt", JStr "2024-04-30T08:00:00.000Z")].

Definition table_of_U1 : Table := {[ ("U1", "X") := milk_item ]}.

(** An id of 1025 bytes, one more than a sort key may have. *)
Definition long_id : string := string_of_list_ascii (replicate 1025 "a"%char).

(** A store that rejects every command with the same error, like a mock
    set to reject. *)
Definition rejecting (e : Error) : store_step unit := fun _ s => (inl e, s).

(** ** Names for the remaining responses and commands *)

Section MoreVocabulary.

Context `{Host}.

Definition list_failed : response :=
  generateResponse 500
    (message_body "Failed to retrieve To-Do items. Please try again later.").

(** The query [getTodosHandler] sends. *)
Definition query_params (userId : jsval) : jsval :=
  JObj [("TableName", TODOS_TABLE_NAME);
        ("KeyConditionExpression", JStr "userId = :u");
        ("ExpressionAttributeValues", JObj [(":u", userId)])].

Definition listed (todos : jsval) : response :=
  generateResponse 200 (JObj [("todos", todos)]).

(** What [getTodosHandler] answers once the query has settled. *)
Definition list_response (r : Error + jsval) : response :=
  match r with
  | inl _ => list_failed
  | inr data =>
      if nullish data then list_failed
      else listed (js_or (member data "Items") (JArr []))
  end.

(** What [deleteTodoHandler] answers once the delete has settled. *)
Definition delete_response (r : Error + jsval) : response :=
  match r with
  | inl _ => delete_failed
  | inr data =>
      if nullish data then delete_failed
      else if truthy (member data "Attributes") then deleted
      else not_found_delete
  end.

Definition title_not_string : response :=
  generateResponse 400 (message_body "Title must be a non-empty string.").

Definition status_not_allowed : response :=
  generateResponse 400 (message_body "Status must be 'pending' or 'completed'.").

(** A response built by [generateResponse] with one of the given status
    codes. *)
Definition answers (codes : list Z) (r : response) : Prop :=
  exists code b, r = generateResponse code b /\ In code codes.

(** An invocation that ended with such a response, no error escaping
    the handler, after at most one command. *)
Definition answered {S : Type} (codes : list Z) (o : outcome response S) : Prop :=
  exists r, result o = inr r /\ answers codes r /\ (length (sent o) <= 1)%nat.

(** The handlers whose catch-all has one response for every error, with
    that response. *)
Definition plain_catch : list ((Event.t -> prog response) * response) :=
  [(createTodoHandler, create_failed);
   (getTodosHandler, list_failed);
   (deleteTodoHandler, delete_failed)].

End MoreVocabulary.

(** The attributes an [UpdateCommand] assigns through
    [ExpressionAttributeNames]. *)
Definition named_attributes (c : command) : list jsval :=
  match c with
  | UpdateCommand params =>
      match member params "ExpressionAttributeNames" with
      | JObj names => snd <$> names
      | _ => []
      end
  | _ => []
  end.

(** What a validation block adds to the builder for a field the request
    gave. *)
Definition with_field (placeholder attribute : string) (v : jsval) (b : builder)
  : builder :=
  if is_undefined v then b
  else set_value (":" +:+ placeholder) v
         (set_name ("#" +:+ placeholder) (JStr attribute)
            (push_expression ("#" +:+ placeholder +:+ " = :" +:+ placeholder) b)).

(** The builder of a request whose three fields pass their checks. *)
Definition collected (title description status : jsval) : builder :=
  with_field "s" "status" status
    (with_field "d" "description" description
       (with_field "t" "title" title (mkBuilder [] [] []))).

(** The checks of [updateTodoHandler] on a field the request gave. *)
Definition title_ok (v : jsval) : Prop :=
  v = JUndefined \/ exists s, v = JStr s /\ trim s <> "".

Definition description_ok (v : jsval) : Prop :=
  v = JUndefined \/ exists s, v = JStr s.

Definition status_ok (v : jsval) : Prop :=
  v = JUndefined \/ v = JStr "pending" \/ v = JStr "completed".

(** [it[k] = v] when the request gave [v], nothing otherwise. *)
Definition opt_set (k : string) (v : jsval) (it : list (string * jsval))
  : list (string * jsval) :=
  if is_undefined v then it else set_prop k v it.

(** The item an update leaves, from the item it found (or the bare key)
    and the three fields of the request. *)
Definition patched (title description status : jsval) (ua : string)
    (it : list (string * jsval)) : list (string * jsval) :=
  set_prop "updatedAt" (JStr ua)
    (opt_set "status" status
       (opt_set "description" description (opt_set "title" title it))).

(** ** Setting up the table: [tests/utils/setupDynamo.js] *)

(** The two commands of the plain client that create and drop a table. *)
Inductive table_command : Type :=
  | CreateTableCommand (params : jsval)
  | DeleteTableCommand (params : jsval).

(** A set-up function: it resolves, rejects, or awaits one more command. *)
Inductive admin (A : Type) : Type :=
  | Resolved (a : A)
  | Rejected (e : Error)
  | AdminSend (c : table_command) (k : Error + jsval -> admin A).

Arguments Resolved {A} a.
Arguments Rejected {A} e.
Arguments AdminSend {A} c k.

Section Setup.

Context `{Host}.

Definition createTodosTable : admin unit :=
  let params :=
    JObj [("TableName", TODOS_TABLE_NAME);
          ("KeySchema",
           JArr [JObj [("AttributeName", JStr "userId"); ("KeyType", JStr "HASH")];
                 JObj [("AttributeName", JStr "todoId"); ("KeyType", JStr "RANGE")]]);
          ("AttributeDefinitions",
           JArr [JObj [("AttributeName", JStr "userId"); ("AttributeType", JStr "S")];
                 JObj [("AttributeName", JStr "todoId"); ("AttributeType", JStr "S")]]);
          ("BillingMode", JStr "PAY_PER_REQUEST")] in
  AdminSend (CreateTableCommand params)
    (fun r =>
       match r with
       | inr _ => Resolved tt
       | inl error =>
           if name error =? "ResourceInUseException" then Resolved tt
           else Rejected error
       end).

Definition deleteTodosTable : admin unit :=
  AdminSend (DeleteTableCommand (JObj [("TableName", TODOS_TABLE_NAME)]))
    (fun r =>
       match r with
       | inr _ => Resolved tt
       | inl error =>
           if name error =? "ResourceNotFoundException" then Resolved tt
           else Rejected error
       end).

End Setup.

(** The tables of an account, by name, each with the key schema of the
    to-do table. *)
Abbreviation Account := (gmap string (gmap (string * string) (list (string * jsval)))).

(** The key schema [createTodosTable] asks for: [userId] as partition key
    and [todoId] as sort key, both strings. *)
Definition todo_schema (params : jsval) : bool :=
  match member params "KeySchema", member params "AttributeDefinitions" with
  | JArr [JObj [("AttributeName", JStr "userId"); ("KeyType", JStr "HASH")];
          JObj [("AttributeName", JStr "todoId"); ("KeyType", JStr "RANGE")]],
    JArr [JObj [("AttributeName", JStr "userId"); ("AttributeType", JStr "S")];
          JObj [("AttributeName", JStr "todoId"); ("AttributeType", JStr "S")]] =>
      true
  | _, _ => false
  end.

(** [CreateTable] refuses a name in use; [DeleteTable] refuses a name
    that is not there and otherwise drops the table with its items.  The
    model holds tables of the to-do key schema only and refuses the
    creation of any other. *)
Definition account_step (c : table_command) (acc : Account)
  : (Error + jsval) * Account :=
  match c with
  | CreateTableCommand params =>
      match member params "TableName" with
      | JStr n =>
          match acc !! n with
          | Some _ =>
              (inl (mkError "ResourceInUseException"
                      ("Table already exists: " +:+ n)), acc)
          | None =>
              if todo_schema params then (inr (JObj []), <[n := ∅]> acc)
              else (inl (ValidationException
                           "One or more parameter values were invalid"), acc)
          end
      | _ => (inl (ValidationException "TableName is required"), acc)
      end
  | DeleteTableCommand params =>
      match member params "TableName" with
      | JStr n =>
          match acc !! n with
          | Some _ => (inr (JObj []), delete n acc)
          | None =>
              (inl (mkError "ResourceNotFoundException"
                      ("Cannot do operations on a non-existent table")), acc)
          end
      | _ => (inl (ValidationException "TableName is required"), acc)
      end
  end.

Fixpoint run_admin {A W : Type}
    (send : table_command -> W -> (Error + jsval) * W)
    (p : admin A) (w : W) : (Error + A) * W :=
  match p with
  | Resolved a => (inr a, w)
  | Rejected e => (inl e, w)
  | AdminSend c k => let '(r, w') := send c w in run_admin send (k r) w'
  end.

(** ** The browser side: [frontend-src/todoHandlers.js] *)

(** [get], [post], [put] and [del] of the API client. *)
Inductive api_method : Type := GET | POST | PUT | DEL.

(** The properties of the page elements that [createTodo],
    [updateTodoStatus] and [deleteTodo] read and write. *)
Record elements : Type := mkElements {
  newTodoTitleInput_value : string;
  newTodoDescriptionInput_value : string;
  todoMessage_textContent : string;
  todoMessage_className : string
}.

(** What these functions await or call.  [IdToken] stands for
    [fetchAuthSession()] followed by [session.tokens.idToken.toString()],
    and [Call] for the request followed by [result.response] and
    [raw.body.json()]: in each group every step can only throw into the
    same [catch], and nothing is written in between.  [FetchTodos] is the
    call [fetchTodos()], which is not awaited and catches its own
    errors. *)
Inductive ui (A : Type) : Type :=
  | Finish (a : A)
  | Fail (e : Error)
  | IdToken (k : Error + string -> ui A)
  | Call (m : api_method) (input : jsval) (k : Error + jsval -> ui A)
  | FetchTodos (k : ui A).

Arguments Finish {A} a.
Arguments Fail {A} e.
Arguments IdToken {A} k.
Arguments Call {A} m input k.
Arguments FetchTodos {A} k.

Fixpoint ui_bind {A B : Type} (p : ui A) (f : A -> ui B) : ui B :=
  match p with
  | Finish a => f a
  | Fail e => Fail e
  | IdToken k => IdToken (fun r => ui_bind (k r) f)
  | Call m input k => Call m input (fun r => ui_bind (k r) f)
  | FetchTodos k => FetchTodos (ui_bind k f)
  end.

Fixpoint ui_try {A : Type} (p : ui A) (h : Error -> ui A) : ui A :=
  match p with
  | Finish a => Finish a
  | Fail e => h e
  | IdToken k => IdToken (fun r => ui_try (k r) h)
  | Call m input k => Call m input (fun r => ui_try (k r) h)
  | FetchTodos k => FetchTodos (ui_try k h)
  end.

Definition await_token : ui string :=
  IdToken (fun r => match r with inl e => Fail e | inr t => Finish t end).

Definition await_call (m : api_method) (input : jsval) : ui jsval :=
  Call m input (fun r => match r with inl e => Fail e | inr d => Finish d end).

Definition red : string := "text-sm mt-4 text-center text-red-500".

(** [error.message || 'Unknown error'] *)
Definition message_or_unknown (error : Error) : string :=
  if message error =? "" then "Unknown error" else message error.

Definition show_failure (what : string) (error : Error) (els : elements)
  : elements :=
  {| newTodoTitleInput_value := newTodoTitleInput_value els;
     newTodoDescriptionInput_value := newTodoDescriptionInput_value els;
     todoMessage_textContent := what +:+ message_or_unknown error;
     todoMessage_className := red |}.

Definition bearer (idToken : string) : jsval :=
  JObj [("Authorization", JStr ("Bearer " +:+ idToken))].

Definition createTodo (els : elements) : ui elements :=
  let title := trim (newTodoTitleInput_value els) in
  let description := trim (newTodoDescriptionInput_value els) in
  let els :=
    {| newTodoTitleInput_value := newTodoTitleInput_value els;
       newTodoDescriptionInput_value := newTodoDescriptionInput_value els;
       todoMessage_textContent := "";
       todoMessage_className := todoMessage_className els |} in
  if negb (truthy (JStr title)) then
    Finish {| newTodoTitleInput_value := newTodoTitleInput_value els;
              newTodoDescriptionInput_value := newTodoDescriptionInput_value els;
              todoMessage_textContent := "To-Do title cannot be empty.";
              todoMessage_className := red |}
  else
    ui_try
      (ui_bind await_token (fun idToken =>
       ui_bind
         (await_call POST
            (JObj [("apiName", JStr "TodoApi");
                   ("path", JStr "/todos");
                   ("options",
                    JObj [("body", JObj [("title", JStr title);
                                         ("description", JStr description)]);
                          ("headers", bearer idToken)])]))
         (fun data =>
            FetchTodos
              (Finish {| newTodoTitleInput_value := "";
                         newTodoDescriptionInput_value := "";
                         todoMessage_textContent := todoMessage_textContent els;
                         todoMessage_className := todoMessage_className els |}))))
      (fun error => Finish (show_failure "Failed to create To-Do: " error els)).

Definition updateTodoStatus (todoId : string) (currentStatus : jsval)
    (els : elements) : ui elements :=
  let newStatus :=
    match currentStatus with
    | JStr "pending" => "completed"
    | _ => "pending"
    end in
  ui_try
    (ui_bind await_token (fun idToken =>
     ui_bind
       (await_call PUT
          (JObj [("apiName", JStr "TodoApi");
                 ("path", JStr ("/todos/" +:+ todoId));
                 ("options",
                  JObj [("body", JObj [("status", JStr newStatus)]);
                        ("headers", bearer idToken)])]))
       (fun data => FetchTodos (Finish els))))
    (fun error =>
       Finish (show_failure "Failed to update To-Do status: " error els)).

Definition deleteTodo (todoId : string) (els : elements) : ui elements :=
  ui_try
    (ui_bind await_token (fun idToken =>
     ui_bind
       (await_call DEL
          (JObj [("apiName", JStr "TodoApi");
                 ("path", JStr ("/todos/" +:+ todoId));
                 ("options", JObj [("headers", bearer idToken)])]))
       (fun data => FetchTodos (Finish els))))
    (fun error => Finish (show_failure "Failed to delete To-Do: " error els)).

(** One run of such a function: the elements it leaves (or the error
    that escaped), the requests made, and how often the list was
    refreshed. *)
Record ui_outcome : Type := mkUiOutcome {
  ui_result : Error + elements;
  ui_calls : list (api_method * jsval);
  ui_refreshes : nat
}.

Fixpoint run_ui (token : Error + string)
    (api : api_method -> jsval -> Error + jsval) (p : ui elements) : ui_outcome :=
  match p with
  | Finish els => mkUiOutcome (inr els) [] 0
  | Fail e => mkUiOutcome (inl e) [] 0
  | IdToken k => run_ui token api (k token)
  | Call m input k =>
      let o := run_ui token api (k (api m input)) in
      mkUiOutcome (ui_result o) ((m, input) :: ui_calls o) (ui_refreshes o)
  | FetchTodos k =>
      let o := run_ui token api k in
      mkUiOutcome (ui_result o) (ui_calls o) (Datatypes.S (ui_refreshes o))
  end.

(** The body a request of the browser carries. *)
Definition sent_body (input : jsval) : jsval :=
  member (member input "options") "body".

(** The request [createTodo] makes for a title left by trimming. *)
Definition create_call (title description idToken : string) : jsval :=
  JObj [("apiName", JStr "TodoApi");
        ("path", JStr "/todos");
        ("options",
         JObj [("body", JObj [("title", JStr title);
                              ("description", JStr description)]);
               ("headers", bearer idToken)])].

(** The status [updateTodoStatus] asks for. *)
Definition toggled (currentStatus : jsval) : string :=
  match currentStatus with
  | JStr "pending" => "completed"
  | _ => "pending"
  end.

(** The requests of [updateTodoStatus] and [deleteTodo]. *)
Definition status_call (todoId newStatus idToken : string) : jsval :=
  JObj [("apiName", JStr "TodoApi");
        ("path", JStr ("/todos/" +:+ todoId));
        ("options",
         JObj [("body", JObj [("status", JStr newStatus)]);
               ("headers", bearer idToken)])].

Definition delete_call (todoId idToken : string) : jsval :=
  JObj [("apiName", JStr "TodoApi");
        ("path", JStr ("/todos/" +:+ todoId));
        ("options", JObj [("headers", bearer idToken)])].

(** How a function that makes one request ends: with the failure shown
    when the token or the request failed, with [done] and one refresh of
    the list otherwise. *)
Definition one_request (token : Error + string)
    (api : api_method -> jsval -> Error + jsval)
    (m : api_method) (input : string -> jsval) (what : string)
    (els done : elements) : ui_outcome :=
  match token with
  | inl e => mkUiOutcome (inr (show_failure what e els)) [] 0
  | inr idToken =>
      match api m (input idToken) with
      | inl e =>
          mkUiOutcome (inr (show_failure what e els)) [(m, input idToken)] 0
      | inr _ => mkUiOutcome (inr done) [(m, input idToken)] 1
      end
  end.
(** ** More data for the examples *)


Definition complete_it : jsval := JObj [("status", JStr "completed")].

Definition milk_with_note : jsval :=
  JObj [("title", JStr "Buy milk"); ("description", JStr "two litres")].

(** The page with a title and a note typed in, spaces around them. *)
Definition typed_in : elements :=
  mkElements "  Buy milk " " two litres" "" "".

Definition signed_in : Error + string := inr "header.payload.signature".

(** An API that answers every request with an empty object. *)
Definition agreeing : api_method -> jsval -> Error + jsval :=
  fun _ _ => inr (JObj []).

(** The update [updateTodoHandler] sends for the title "Buy milk". *)
Definition retitle_command : command :=
  UpdateCommand
    (JObj [("TableName", JStr "Todos");
           ("Key", JObj [("userId", JStr "U1"); ("todoId", JStr "X")]);
           ("UpdateExpression", JStr "SET #t = :t, updatedAt = :ua");
           ("ExpressionAttributeValues",
            JObj [(":t", JStr "Buy milk");
                  (":ua", JStr "2024-05-01T10:00:00.000Z")]);
           ("ReturnValues", JStr "ALL_NEW");
           ("ExpressionAttributeNames", JObj [("#t", JStr "title")])]).

Definition later_runtime : runtime :=
  mkRuntime "2024-05-02T09:30:00.000Z" "3f2b8c1e-0000-4000-8000-000000000002".

(** The path parameters for the id [example_runtime] draws. *)
Definition todo_new : jsval := JObj [("id", JStr (fresh_uuid example_runtime))].

(** * Properties *)

(** ** Basic facts *)

Lemma truthy_member_not_nullish (v : jsval) (k : string) :
  truthy (member v k) = true -> nullish v = false.
Proof. destruct v; simpl; congruence. Qed.

Lemma absent_or_empty_falsy (v : jsval) :
  v = JUndefined \/ v = JNull \/ v = JStr "" -> truthy v = false.
Proof. intros [-> | [-> | ->]]; reflexivity. Qed.

Lemma length_push_expression (e : string) (b : builder) :
  length (updateExpressions (push_expression e b))
  = Datatypes.S (length (updateExpressions b)).
Proof. simpl. rewrite length_app. simpl. lia. Qed.

(** The emptiness test of [updateTodoHandler] comes after the push of the
    timestamp: the array it looks at is never empty. *)
Lemma stamped_is_not_empty (ua : string) (b : builder) :
  (length (updateExpressions (stamp ua b)) =? 0)%nat = false.
Proof.
  unfold stamp, set_value. cbn [updateExpressions].
  rewrite length_push_expression. reflexivity.
Qed.

Section Validation.

Context `{Host} {S : Type} (send : store_step S) (rt : runtime).

(** A handler that returns without having sent anything leaves the store
    as it found it. *)
Lemma run_Ret {A : Type} (a : A) (s : S) :
  run send rt (Ret a) s = mkOutcome (inr a) s [].
Proof. reflexivity. Qed.

(** C9.  A request to any of the four operations whose verified subject
    claim, read from the event as
    [event.requestContext?.authorizer?.claims?.sub], is absent
    ([undefined] or [null]) or the empty string is answered with status
    401, and nothing is sent to the store. *)
Theorem missing_subject_is_unauthorized (event : Event.t) (s : S) (sub : jsval) :
  opt_member
    (opt_member (opt_member (Event.requestContext event) "authorizer") "claims")
    "sub" = sub ->
  sub = JUndefined \/ sub = JNull \/ sub = JStr "" ->
  statusCode unauthorized = 401%Z
  /\ body unauthorized
     = JSON_stringify (message_body "Unauthorized: User ID not found in token.")
  /\ run send rt (createTodoHandler event) s = mkOutcome (inr unauthorized) s []
  /\ run send rt (getTodosHandler event) s = mkOutcome (inr unauthorized) s []
  /\ run send rt (updateTodoHandler event) s = mkOutcome (inr unauthorized) s []
  /\ run send rt (deleteTodoHandler event) s = mkOutcome (inr unauthorized) s [].
Proof.
  intros Hclaim Hsub. fold (claimed_sub event) in Hclaim. subst sub.
  apply absent_or_empty_falsy in Hsub.
  split; [reflexivity |]. split; [reflexivity |].
  unfold createTodoHandler, getTodosHandler, updateTodoHandler, deleteTodoHandler.
  cbv zeta. rewrite Hsub. simpl. auto.
Qed.

(** A create request whose title is missing, not a string, or blank is
    answered with 400 whatever the description, and nothing is written. *)
Lemma blank_title_is_invalid (event : Event.t) (s : S) (requestBody : jsval) :
  truthy (claimed_sub event) = true ->
  JSON_parse (Event.body event) = inr requestBody ->
  nullish requestBody = false ->
  truthy (member requestBody "title") = false
  \/ typeof (member requestBody "title") <> "string"
  \/ trims_to_empty (member requestBody "title") = true ->
  run send rt (createTodoHandler event) s = mkOutcome (inr title_required) s [].
Proof.
  intros Hsub Hparse Hbody Htitle.
  assert (Hcheck : negb (truthy (member requestBody "title"))
                   || negb (typeof (member requestBody "title") =? "string")
                   || trims_to_empty (member requestBody "title") = true).
  { destruct Htitle as [-> | [Hty | ->]].
    - reflexivity.
    - apply String.eqb_neq in Hty. rewrite Hty.
      destruct (truthy (member requestBody "title")); reflexivity.
    - apply orb_true_r. }
  unfold createTodoHandler, parse_json, destructure. cbv zeta.
  rewrite Hsub, Hparse. simpl. rewrite Hbody. simpl. rewrite Hcheck.
  reflexivity.
Qed.

(** When the path parameters are an object without a usable [id], update
    and delete answer 400 before anything else happens. *)
Lemma missing_id_is_invalid (event : Event.t) (s : S) :
  truthy (claimed_sub event) = true ->
  nullish (Event.pathParameters event) = false ->
  truthy (member (Event.pathParameters event) "id") = false ->
  run send rt (updateTodoHandler event) s = mkOutcome (inr id_required) s []
  /\ run send rt (deleteTodoHandler event) s = mkOutcome (inr id_required) s [].
Proof.
  intros Hsub Hpath Hid.
  unfold updateTodoHandler, deleteTodoHandler, get_member.
  cbv zeta. rewrite Hsub, Hpath. simpl. rewrite Hid. simpl. auto.
Qed.

(** C6, as the code has it.  When the event carries no path-parameters
    object at all, reading [event.pathParameters.id] throws; the catch-all
    turns the [TypeError] into status 500 for update and for delete, not
    into the 400 of a missing id.  Nothing is sent to the store. *)
Theorem absent_path_parameters_is_500 (event : Event.t) (s : S) :
  truthy (claimed_sub event) = true ->
  nullish (Event.pathParameters event) = true ->
  statusCode update_failed = 500%Z
  /\ statusCode delete_failed = 500%Z
  /\ run send rt (updateTodoHandler event) s = mkOutcome (inr update_failed) s []
  /\ run send rt (deleteTodoHandler event) s = mkOutcome (inr delete_failed) s [].
Proof.
  intros Hsub Hpath.
  unfold updateTodoHandler, deleteTodoHandler, get_member.
  cbv zeta. rewrite Hsub, Hpath. simpl. auto.
Qed.


End Validation.

(** ** The update handler, path by path *)

Section UpdatePaths.

Context `{Host}.

(** Past the checks on owner, id and body, the handler is: the early
    response of a validation block, or else one [UpdateCommand] followed
    by [update_reply].  The test [updateExpressions.length === 0] sits
    after the push of the timestamp and never fires. *)
Lemma update_after_parse (event : Event.t) (requestBody : jsval) :
  truthy (claimed_sub event) = true ->
  truthy (member (Event.pathParameters event) "id") = true ->
  JSON_parse (Event.body event) = inr requestBody ->
  nullish requestBody = false ->
  match validated requestBody with
  | inl r => updateTodoHandler event = Ret r
  | inr b =>
      exists k,
        updateTodoHandler event
        = DateNow (fun ua =>
            Send (UpdateCommand
                    (update_params (claimed_sub event)
                       (member (Event.pathParameters event) "id") (stamp ua b)))
                 (k ua))
        /\ forall ua r, k ua r = update_reply r
  end.
Proof.
  intros Hsub Hid Hparse Hbody.
  pose proof (truthy_member_not_nullish _ _ Hid) as Hpath.
  unfold validated, updateTodoHandler, get_member, parse_json, destructure.
  cbv zeta. rewrite Hsub, Hpath. simpl. rewrite Hid. simpl.
  rewrite Hparse. simpl. rewrite Hbody. simpl.
  destruct (title_block _ _) as [r | b]; [reflexivity |].
  destruct (description_block _ _) as [r | b']; [reflexivity |].
  destruct (status_block _ _) as [r | [exprs values names]]; [reflexivity |].
  destruct exprs; simpl; (eexists; split; [reflexivity |]);
    intros ua [e | data]; try reflexivity;
    unfold update_reply, get_member; simpl;
    (destruct (nullish data); [reflexivity |]); simpl;
    destruct (truthy (member data "Attributes")); reflexivity.
Qed.

(** Every path of the handler: an early response, or one command and
    then [update_reply]. *)
Lemma update_shape (event : Event.t) :
  (exists r, updateTodoHandler event = Ret r)
  \/ (exists params k,
        updateTodoHandler event
        = DateNow (fun ua => Send (UpdateCommand (params ua)) (k ua))
        /\ forall ua r, k ua r = update_reply r).
Proof.
  destruct (truthy (claimed_sub event)) eqn:Hsub.
  2: { left. eexists. unfold updateTodoHandler. cbv zeta. rewrite Hsub.
       reflexivity. }
  destruct (nullish (Event.pathParameters event)) eqn:Hpath.
  { left. eexists. unfold updateTodoHandler, get_member. cbv zeta.
    rewrite Hsub, Hpath. reflexivity. }
  destruct (truthy (member (Event.pathParameters event) "id")) eqn:Hid.
  2: { left. eexists. unfold updateTodoHandler, get_member. cbv zeta.
       rewrite Hsub, Hpath. simpl. rewrite Hid. reflexivity. }
  destruct (JSON_parse (Event.body event)) as [m | requestBody] eqn:Hparse.
  { left. eexists. unfold updateTodoHandler, get_member, parse_json. cbv zeta.
    rewrite Hsub, Hpath. simpl. rewrite Hid. simpl. rewrite Hparse.
    reflexivity. }
  destruct (nullish requestBody) eqn:Hbody.
  { left. eexists.
    unfold updateTodoHandler, get_member, parse_json, destructure. cbv zeta.
    rewrite Hsub, Hpath. simpl. rewrite Hid. simpl. rewrite Hparse. simpl.
    rewrite Hbody. reflexivity. }
  pose proof (update_after_parse event requestBody Hsub Hid Hparse Hbody) as Hv.
  destruct (validated requestBody) as [r | b].
  - left. exists r. exact Hv.
  - right. destruct Hv as (k & Heq & Hk).
    exists (fun ua => update_params (claimed_sub event)
                        (member (Event.pathParameters event) "id") (stamp ua b)).
    exists k. split; assumption.
Qed.

End UpdatePaths.

Lemma assoc_absent (k : string) (fs : list (string * jsval)) :
  Forall (fun kv => fst kv <> k) fs -> assoc k fs = JUndefined.
Proof.
  induction 1 as [| [k' v] fs Hk _ IH]; simpl; [reflexivity |].
  destruct (String.eqb_spec k k') as [-> | _]; [| exact IH].
  simpl in Hk. congruence.
Qed.

Section UpdateOutcomes.

Context `{Host} {S : Type} (send : store_step S) (rt : runtime).

Lemma update_reply_returns (r : Error + jsval) :
  update_reply r = Ret (reply_response r).
Proof.
  destruct r as [e | data]; simpl.
  - unfold update_catch, key_schema_mismatch.
    destruct (_ && _); reflexivity.
  - destruct (nullish data); [reflexivity |].
    destruct (truthy (member data "Attributes")); reflexivity.
Qed.

(** Running the handler once [update_shape] has found its command. *)
Lemma run_update_command (event : Event.t) (s : S)
    (params : string -> jsval) (k : string -> Error + jsval -> prog response) :
  updateTodoHandler event
  = DateNow (fun ua => Send (UpdateCommand (params ua)) (k ua)) ->
  (forall ua r, k ua r = update_reply r) ->
  run send rt (updateTodoHandler event) s
  = mkOutcome
      (inr (reply_response (fst (send (UpdateCommand (params (instant rt))) s))))
      (snd (send (UpdateCommand (params (instant rt))) s))
      [UpdateCommand (params (instant rt))].
Proof.
  intros -> Hk. simpl.
  destruct (send _ s) as [r s']. rewrite Hk, update_reply_returns.
  reflexivity.
Qed.

(** C7.  Once an update request has reached the store call: when the
    call is rejected with a validation error that reports a key-schema
    mismatch, the handler answers 400; when it is rejected with any other
    error, the handler answers 500 with one fixed response, the same
    whatever the error says. *)
Theorem update_store_failure (event : Event.t) (s s' : S)
    (c : command) (rest : list command) (e : Error) :
  sent (run send rt (updateTodoHandler event) s) = c :: rest ->
  send c s = (inl e, s') ->
  run send rt (updateTodoHandler event) s
  = mkOutcome (inr (if key_schema_mismatch e then invalid_key else update_failed))
      s' [c]
  /\ statusCode invalid_key = 400%Z
  /\ statusCode update_failed = 500%Z
  /\ body update_failed
     = JSON_stringify
         (message_body "Failed to update To-Do item. Please try again later.").
Proof.
  intros Hsent Hsend.
  split; [| repeat split].
  destruct (update_shape event) as [[r Hr] | (params & k & Heq & Hk)].
  - rewrite Hr in Hsent. discriminate.
  - rewrite (run_update_command event s params k Heq Hk) in *.
    simpl in Hsent. injection Hsent as <- _.
    rewrite Hsend. reflexivity.
Qed.

(** C1, as the code has it.  A request with owner and id whose body is an
    object with none of [title], [description], [status] is not rejected:
    the timestamp is pushed before the emptiness test, so the handler
    sends an update that sets [updatedAt] alone and answers with whatever
    that call yields. *)
Theorem unrecognized_fields_reach_the_store (event : Event.t) (s : S)
    (fs : list (string * jsval)) :
  truthy (claimed_sub event) = true ->
  truthy (member (Event.pathParameters event) "id") = true ->
  JSON_parse (Event.body event) = inr (JObj fs) ->
  Forall (fun kv => fst kv <> "title") fs ->
  Forall (fun kv => fst kv <> "description") fs ->
  Forall (fun kv => fst kv <> "status") fs ->
  let c :=
    UpdateCommand
      (JObj [("TableName", TODOS_TABLE_NAME);
             ("Key", JObj [("userId", claimed_sub event);
                           ("todoId", member (Event.pathParameters event) "id")]);
             ("UpdateExpression", JStr "SET updatedAt = :ua");
             ("ExpressionAttributeValues", JObj [(":ua", JStr (instant rt))]);
             ("ReturnValues", JStr "ALL_NEW");
             ("ExpressionAttributeNames", JObj [])]) in
  run send rt (updateTodoHandler event) s
  = mkOutcome (inr (reply_response (fst (send c s)))) (snd (send c s)) [c].
Proof.
  intros Hsub Hid Hparse Ht Hd Hs c.
  pose proof (update_after_parse event (JObj fs) Hsub Hid Hparse eq_refl) as Hv.
  unfold validated in Hv. simpl in Hv.
  rewrite (assoc_absent _ _ Ht), (assoc_absent _ _ Hd), (assoc_absent _ _ Hs) in Hv.
  simpl in Hv. destruct Hv as (k & Heq & Hk).
  rewrite (run_update_command event s _ k Heq Hk). reflexivity.
Qed.

End UpdateOutcomes.

(** ** The create handler, path by path *)

Lemma trim_nonempty (s : string) : trim s <> "" -> s <> "".
Proof. intros Ht ->. apply Ht. reflexivity. Qed.

Section CreatePaths.

Context `{Host}.

(** A request with an owner, a parsed body and a title that is a
    non-blank string passes the title check; the description check then
    decides between the 400 response and the write. *)
Lemma create_after_title (event : Event.t) (requestBody : jsval) (ttl : string) :
  truthy (claimed_sub event) = true ->
  JSON_parse (Event.body event) = inr requestBody ->
  member requestBody "title" = JStr ttl ->
  trim ttl <> "" ->
  if truthy (member requestBody "description")
     && negb (typeof (member requestBody "description") =? "string")
  then createTodoHandler event = Ret description_not_string
  else
    exists k,
      createTodoHandler event
      = Uuidv4 (fun todoId => DateNow (fun createdAt =>
          Send (PutCommand
                  (put_params
                     (new_item (claimed_sub event) todoId (JStr ttl)
                        (member requestBody "description") createdAt)))
               (k todoId createdAt)))
      /\ forall todoId createdAt r,
           k todoId createdAt r
           = Ret (create_response
                    (new_item (claimed_sub event) todoId (JStr ttl)
                       (member requestBody "description") createdAt) r).
Proof.
  intros Hsub Hparse Htitle Htrim.
  assert (Hbody : nullish requestBody = false)
    by (destruct requestBody; try discriminate; reflexivity).
  pose proof (trim_nonempty _ Htrim) as Hne.
  apply String.eqb_neq in Htrim. apply String.eqb_neq in Hne.
  unfold createTodoHandler, parse_json, destructure. cbv zeta.
  rewrite Hsub, Hparse. simpl. rewrite Hbody. simpl.
  rewrite Htitle. simpl. rewrite Hne, Htrim. simpl.
  destruct (truthy (member requestBody "description")
            && negb (typeof (member requestBody "description") =? "string"));
    [reflexivity |].
  eexists. split; [reflexivity |].
  intros todoId createdAt [e | data]; reflexivity.
Qed.

End CreatePaths.

Section CreateOutcomes.

Context `{Host} {S : Type} (send : store_step S) (rt : runtime).

Lemma run_create_command (event : Event.t) (s : S)
    (item : string -> string -> list (string * jsval))
    (k : string -> string -> Error + jsval -> prog response) :
  createTodoHandler event
  = Uuidv4 (fun todoId => DateNow (fun createdAt =>
      Send (PutCommand (put_params (item todoId createdAt)))
           (k todoId createdAt))) ->
  (forall todoId createdAt r,
     k todoId createdAt r = Ret (create_response (item todoId createdAt) r)) ->
  let it := item (fresh_uuid rt) (instant rt) in
  run send rt (createTodoHandler event) s
  = mkOutcome
      (inr (create_response it (fst (send (PutCommand (put_params it)) s))))
      (snd (send (PutCommand (put_params it)) s))
      [PutCommand (put_params it)].
Proof.
  intros -> Hk. simpl.
  destruct (send _ s) as [r s']. rewrite Hk. reflexivity.
Qed.


End CreateOutcomes.

Section DescriptionCheck.

Context `{Host} {S : Type} (send : store_step S) (rt : runtime).

(** C5, as the code has it.  With an owner and a valid title, a
    description that is present, not a string and truthy (a non-zero
    number, [true], an array, an object) is refused with status 400 and
    nothing is written.  The check is guarded by the truthiness of the
    description, so a description that is present, not a string and falsy
    ([null], [0], [false]) is treated as absent: the handler sends the
    write, with the empty string as description. *)
Theorem create_description_check (event : Event.t) (s : S)
    (requestBody : jsval) (ttl : string) :
  truthy (claimed_sub event) = true ->
  JSON_parse (Event.body event) = inr requestBody ->
  member requestBody "title" = JStr ttl ->
  trim ttl <> "" ->
  member requestBody "description" <> JUndefined ->
  typeof (member requestBody "description") <> "string" ->
  (truthy (member requestBody "description") = true ->
   statusCode description_not_string = 400%Z
   /\ run send rt (createTodoHandler event) s
      = mkOutcome (inr description_not_string) s [])
  /\ (truthy (member requestBody "description") = false ->
      exists item,
        let c := PutCommand (put_params item) in
        run send rt (createTodoHandler event) s
        = mkOutcome (inr (create_response item (fst (send c s))))
            (snd (send c s)) [c]
        /\ assoc "description" item = JStr ""
        /\ forall data, statusCode (create_response item (inr data)) = 201%Z).
Proof.
  intros Hsub Hparse Htitle Htrim _ Htype.
  pose proof (create_after_title event requestBody ttl Hsub Hparse Htitle Htrim)
    as Hpath.
  apply String.eqb_neq in Htype.
  split; intros Htruthy; rewrite Htruthy, Htype in Hpath; simpl in Hpath.
  - rewrite Hpath. split; reflexivity.
  - destruct Hpath as (k & Heq & Hk).
    pose proof (run_create_command send rt event s _ k Heq Hk) as Hrun.
    cbv zeta in Hrun. eexists. split; [exact Hrun |]. split.
    + simpl. unfold js_or. rewrite Htruthy. reflexivity.
    + reflexivity.
Qed.

End DescriptionCheck.

(** ** The handlers on the table *)

Section OnTheTable.

Context `{Host} `{Service} (rt : runtime).

Lemma nonempty_truthy (u : string) : u <> "" -> truthy (JStr u) = true.
Proof. intros Hu. simpl. apply String.eqb_neq in Hu. rewrite Hu. reflexivity. Qed.

Lemma key_of_fits (u t : string) :
  u <> "" -> t <> "" -> key_fits u t -> key_of u t = inr (u, t).
Proof.
  intros Hu Ht [Hpk Hsk]. apply String.eqb_neq in Hu, Ht.
  apply N.leb_le in Hpk, Hsk.
  unfold key_of, partition_key. rewrite Hu, Ht, Hpk, Hsk. reflexivity.
Qed.

Lemma primary_key_strings (u t : string) :
  u <> "" -> t <> "" -> key_fits u t ->
  primary_key (JObj [("userId", JStr u); ("todoId", JStr t)]) = inr (u, t).
Proof. intros Hu Ht Hfits. simpl. apply key_of_fits; assumption. Qed.

(** A delete by owner [u] of id [t], a key within the limits: the table
    loses what it had at [(u, t)]; the answer is 200 when there was an
    item and 404 when there was none. *)
Lemma delete_on_table (event : Event.t) (tbl : Table) (u t : string) :
  claimed_sub event = JStr u -> u <> "" ->
  member (Event.pathParameters event) "id" = JStr t -> t <> "" ->
  key_fits u t ->
  run dynamodb rt (deleteTodoHandler event) tbl
  = mkOutcome
      (inr (match tbl !! (u, t) with
            | Some _ => deleted
            | None => not_found_delete
            end))
      (delete (u, t) tbl)
      [DeleteCommand (delete_params (JStr u) (JStr t))].
Proof.
  intros Hsub Hu Hid Ht Hfits.
  assert (Hpath : nullish (Event.pathParameters event) = false).
  { apply (truthy_member_not_nullish _ "id"). rewrite Hid.
    apply nonempty_truthy, Ht. }
  unfold deleteTodoHandler, get_member. cbv zeta.
  rewrite Hsub, (nonempty_truthy u Hu), Hpath. simpl.
  rewrite Hid, (nonempty_truthy t Ht). simpl.
  unfold ddb_delete.
  change (member (JObj _) "Key")
    with (JObj [("userId", JStr u); ("todoId", JStr t)]).
  rewrite (primary_key_strings u t Hu Ht Hfits).
  change (member (JObj _) "ReturnValues") with (JStr "ALL_OLD").
  destruct (tbl !! (u, t)) as [it |]; reflexivity.
Qed.

Lemma key_of_refused (u t : string) :
  ~ key_fits u t -> exists e, key_of u t = inl e.
Proof.
  intros Hno. unfold key_of, partition_key.
  destruct (u =? ""); [eauto |].
  destruct (utf8_length u <=? max_partition_key)%N eqn:Hpk; [| eauto].
  destruct (t =? ""); [eauto |].
  destruct (utf8_length t <=? max_sort_key)%N eqn:Hsk; [| eauto].
  exfalso. apply Hno. split; apply N.leb_le; assumption.
Qed.

(** A delete whose key the store refuses: the catch-all answers 500 and
    the table stays as it was. *)
Lemma delete_refused_on_table (event : Event.t) (tbl : Table) (u t : string) :
  claimed_sub event = JStr u -> u <> "" ->
  member (Event.pathParameters event) "id" = JStr t -> t <> "" ->
  ~ key_fits u t ->
  run dynamodb rt (deleteTodoHandler event) tbl
  = mkOutcome (inr delete_failed) tbl
      [DeleteCommand (delete_params (JStr u) (JStr t))].
Proof.
  intros Hsub Hu Hid Ht Hno.
  assert (Hpath : nullish (Event.pathParameters event) = false).
  { apply (truthy_member_not_nullish _ "id"). rewrite Hid.
    apply nonempty_truthy, Ht. }
  destruct (key_of_refused u t Hno) as [e Hkey].
  unfold deleteTodoHandler, get_member. cbv zeta.
  rewrite Hsub, (nonempty_truthy u Hu), Hpath. simpl.
  rewrite Hid, (nonempty_truthy t Ht). simpl.
  unfold ddb_delete.
  change (primary_key (member (JObj _) "Key")) with (key_of u t).
  rewrite Hkey. reflexivity.
Qed.

Lemma title_block_string (ttl : string) (b : builder) :
  trim ttl <> "" ->
  title_block (JStr ttl) b
  = inr (set_value ":t" (JStr ttl)
           (set_name "#t" (JStr "title") (push_expression "#t = :t" b))).
Proof.
  intros Htrim. apply String.eqb_neq in Htrim.
  unfold title_block, trims_to_empty.
  change (negb (is_undefined (JStr ttl))) with true.
  change (typeof (JStr ttl)) with "string".
  cbv iota beta. rewrite Htrim. reflexivity.
Qed.

(** [UpdateItem], once the expression, its names and values and the key
    are found in order: the item is written if it stays within 400 KB. *)
Lemma ddb_update_outcome (params : jsval) (tbl : Table)
    (cs : list (string * string)) (acts : list (string * jsval)) (u t : string) :
  empty_object (member params "ExpressionAttributeNames") = false ->
  empty_object (member params "ExpressionAttributeValues") = false ->
  parse_update (member params "UpdateExpression") = Some cs ->
  resolve_actions (member params "ExpressionAttributeNames")
    (member params "ExpressionAttributeValues") cs = inr acts ->
  primary_key (member params "Key") = inr (u, t) ->
  member params "ReturnValues" = JStr "ALL_NEW" ->
  let new :=
    apply_actions acts
      (default [("userId", JStr u); ("todoId", JStr t)] (tbl !! (u, t))) in
  ddb_update params tbl
  = if (item_size new <=? max_item_size)%N
    then (inr (JObj [("Attributes", JObj new)]), <[(u, t) := new]> tbl)
    else (inl (ValidationException
                 "Item size to update has exceeded the maximum allowed size"),
          tbl).
Proof.
  intros Hnames Hvalues Hparse Hacts Hkey Hreturn new.
  unfold ddb_update. rewrite Hnames, Hvalues, Hparse, Hacts, Hkey, Hreturn.
  reflexivity.
Qed.

(** An update by owner [u] of id [t] that sets the title alone and
    leaves an item within the limits: the store answers with the item as
    written, whether or not the table had an item at [(u, t)], so the
    handler answers 200 in both cases. *)
Lemma update_title_on_table (event : Event.t) (tbl : Table)
    (u t ttl : string) (requestBody : jsval) :
  claimed_sub event = JStr u -> u <> "" ->
  member (Event.pathParameters event) "id" = JStr t -> t <> "" ->
  JSON_parse (Event.body event) = inr requestBody ->
  member requestBody "title" = JStr ttl -> trim ttl <> "" ->
  member requestBody "description" = JUndefined ->
  member requestBody "status" = JUndefined ->
  key_fits u t ->
  let written :=
    set_prop "updatedAt" (JStr (instant rt))
      (set_prop "title" (JStr ttl)
         (default [("userId", JStr u); ("todoId", JStr t)] (tbl !! (u, t)))) in
  (item_size written <= max_item_size)%N ->
  exists c,
    run dynamodb rt (updateTodoHandler event) tbl
    = mkOutcome (inr (updated (JObj written))) (<[(u, t) := written]> tbl) [c]
    /\ (exists params, c = UpdateCommand (JObj params)
                       /\ assoc "ConditionExpression" params = JUndefined).
Proof.
  intros Hsub Hu Hid Ht Hparse Htitle Htrim Hdesc Hstatus Hfits written Hsize.
  assert (Hbody : nullish requestBody = false)
    by (destruct requestBody; try discriminate; reflexivity).
  assert (Hsub' : truthy (claimed_sub event) = true)
    by (rewrite Hsub; apply nonempty_truthy, Hu).
  assert (Hid' : truthy (member (Event.pathParameters event) "id") = true)
    by (rewrite Hid; apply nonempty_truthy, Ht).
  pose proof (update_after_parse event requestBody Hsub' Hid' Hparse Hbody) as Hv.
  unfold validated in Hv. rewrite Htitle, Hdesc, Hstatus in Hv.
  rewrite (title_block_string ttl _ Htrim) in Hv. simpl in Hv.
  destruct Hv as (k & Heq & Hk).
  rewrite (run_update_command dynamodb rt event tbl _ k Heq Hk).
  rewrite Hsub, Hid. unfold dynamodb.
  match goal with
  | |- context [ddb_update ?p tbl] =>
      rewrite (ddb_update_outcome p tbl [("#t", ":t"); ("updatedAt", ":ua")]
                 [("title", JStr ttl); ("updatedAt", JStr (instant rt))] u t)
        by first [reflexivity | exact (primary_key_strings u t Hu Ht Hfits)]
  end.
  change (apply_actions _ _) with written.
  apply N.leb_le in Hsize. rewrite Hsize. cbn [fst snd].
  eexists. split; [reflexivity |].
  eexists. split; reflexivity.
Qed.

End OnTheTable.

Section StoreState.

Context `{Host} `{Service} (rt : runtime).

(** C8.  For an owner and an id that make a key of the table (strings
    that are not empty, of at most 2048 and 1024 bytes), deleting where
    the table has no item at (owner, id) is answered with status 404 and
    leaves the table as it was; this is in particular what a second
    delete meets after a first one has removed the item.  An owner and
    an id that are above these sizes make no key: the store refuses the
    delete and the handler answers 500, the table left as it was. *)
Theorem delete_absent_is_not_found (event : Event.t) (tbl : Table)
    (u t : string) :
  claimed_sub event = JStr u -> u <> "" ->
  member (Event.pathParameters event) "id" = JStr t -> t <> "" ->
  let c := DeleteCommand (delete_params (JStr u) (JStr t)) in
  statusCode not_found_delete = 404%Z
  /\ statusCode delete_failed = 500%Z
  /\ (key_fits u t ->
      (tbl !! (u, t) = None ->
       run dynamodb rt (deleteTodoHandler event) tbl
       = mkOutcome (inr not_found_delete) tbl [c])
      /\ (forall it, tbl !! (u, t) = Some it ->
          run dynamodb rt (deleteTodoHandler event) tbl
          = mkOutcome (inr deleted) (delete (u, t) tbl) [c]
          /\ run dynamodb rt (deleteTodoHandler event) (delete (u, t) tbl)
             = mkOutcome (inr not_found_delete) (delete (u, t) tbl) [c]))
  /\ (~ key_fits u t ->
      run dynamodb rt (deleteTodoHandler event) tbl
      = mkOutcome (inr delete_failed) tbl [c]).
Proof.
  intros Hsub Hu Hid Ht c.
  split; [reflexivity |]. split; [reflexivity |]. split.
  - intros Hfits.
    pose proof (fun tbl' => delete_on_table rt event tbl' u t Hsub Hu Hid Ht Hfits)
      as Hrun.
    split.
    + intros Hnone.
      rewrite Hrun, Hnone, (delete_id tbl (u, t) Hnone). reflexivity.
    + intros it Hsome. split.
      * rewrite Hrun, Hsome. reflexivity.
      * rewrite Hrun, lookup_delete_eq, (delete_id (delete (u, t) tbl) (u, t)).
        -- reflexivity.
        -- apply lookup_delete_eq.
  - intros Hno. apply delete_refused_on_table; assumption.
Qed.

(** C2, as the code has it.  The update is sent without a condition, so
    where the table has no item at (owner, id) the store creates one from
    the key and the assigned attributes and returns it: the handler
    answers 200, not 404, and the table has gained an item.  (The key and
    the new item are within the limits of the store.) *)
Theorem update_absent_key_upserts (event : Event.t) (tbl : Table)
    (u t ttl : string) (requestBody : jsval) :
  claimed_sub event = JStr u -> u <> "" ->
  member (Event.pathParameters event) "id" = JStr t -> t <> "" ->
  JSON_parse (Event.body event) = inr requestBody ->
  member requestBody "title" = JStr ttl -> trim ttl <> "" ->
  member requestBody "description" = JUndefined ->
  member requestBody "status" = JUndefined ->
  tbl !! (u, t) = None ->
  let written :=
    [("userId", JStr u); ("todoId", JStr t); ("title", JStr ttl);
     ("updatedAt", JStr (instant rt))] in
  key_fits u t -> (item_size written <= max_item_size)%N ->
  let o := run dynamodb rt (updateTodoHandler event) tbl in
  result o = inr (updated (JObj written))
  /\ statusCode (updated (JObj written)) = 200%Z
  /\ final o = <[(u, t) := written]> tbl
  /\ final o !! (u, t) = Some written
  /\ final o <> tbl
  /\ (exists params, sent o = [UpdateCommand (JObj params)]
                     /\ assoc "ConditionExpression" params = JUndefined).
Proof.
  intros Hsub Hu Hid Ht Hparse Htitle Htrim Hdesc Hstatus Hnone written
    Hfits Hsize o.
  pose proof (update_title_on_table rt event tbl u t ttl requestBody
                Hsub Hu Hid Ht Hparse Htitle Htrim Hdesc Hstatus Hfits) as Hrun.
  cbv zeta in Hrun. rewrite Hnone in Hrun. specialize (Hrun Hsize).
  destruct Hrun as (c & Hrun & params & -> & Hcond).
  simpl in Hrun. subst o. rewrite Hrun. simpl.
  split; [reflexivity |]. split; [reflexivity |]. split; [reflexivity |].
  split; [apply lookup_insert_eq |]. split.
  - intros Heq. rewrite <- Heq, lookup_insert_eq in Hnone. discriminate.
  - exists params. split; [reflexivity | exact Hcond].
Qed.

(** C3, as the code has it.  The table holds an item with id [x] owned by
    [a]; owner [b], who has no item with that id, asks for it.  The item
    of [a] is untouched by either request and the delete is answered with
    404; but the update, sent without a condition, is answered with 200
    and leaves a new item at ([b], [x]).  (The key and the new item are
    within the limits of the store.) *)
Theorem other_owner_update_upserts (event : Event.t) (tbl : Table)
    (a b x ttl : string) (requestBody : jsval) (item : list (string * jsval)) :
  tbl !! (a, x) = Some item ->
  b <> a ->
  tbl !! (b, x) = None ->
  claimed_sub event = JStr b -> b <> "" ->
  member (Event.pathParameters event) "id" = JStr x -> x <> "" ->
  JSON_parse (Event.body event) = inr requestBody ->
  member requestBody "title" = JStr ttl -> trim ttl <> "" ->
  member requestBody "description" = JUndefined ->
  member requestBody "status" = JUndefined ->
  key_fits b x ->
  (item_size [("userId", JStr b); ("todoId", JStr x); ("title", JStr ttl);
              ("updatedAt", JStr (instant rt))] <= max_item_size)%N ->
  let upd := run dynamodb rt (updateTodoHandler event) tbl in
  let del := run dynamodb rt (deleteTodoHandler event) tbl in
  (exists r, result upd = inr r /\ statusCode r = 200%Z)
  /\ is_Some (final upd !! (b, x))
  /\ final upd !! (a, x) = Some item
  /\ result del = inr not_found_delete
  /\ statusCode not_found_delete = 404%Z
  /\ final del = tbl.
Proof.
  intros Ha Hne Hb Hsub Hbne Hid Hx Hparse Htitle Htrim Hdesc Hstatus
    Hfits Hsize upd del.
  pose proof (update_title_on_table rt event tbl b x ttl requestBody
                Hsub Hbne Hid Hx Hparse Htitle Htrim Hdesc Hstatus Hfits) as Hrun.
  cbv zeta in Hrun. rewrite Hb in Hrun. specialize (Hrun Hsize).
  destruct Hrun as (c & Hrun & _).
  pose proof (delete_on_table rt event tbl b x Hsub Hbne Hid Hx Hfits) as Hdel.
  subst upd del. rewrite Hrun, Hdel, Hb. simpl.
  split; [eexists; split; reflexivity |].
  split; [rewrite lookup_insert_eq; eauto |].
  split; [rewrite lookup_insert_ne by congruence; exact Ha |].
  split; [reflexivity |]. split; [reflexivity |].
  apply delete_id, Hb.
Qed.

End StoreState.

(** * Examples *)

Section Examples.

#[local] Existing Instance example_host.
#[local] Existing Instance example_service.

(** An event without [requestContext]: every handler answers 401. *)
Lemma missing_subject_witness :
  let event := Event.mk JUndefined todo_X (body_of buy_milk) in
  run dynamodb example_runtime (createTodoHandler event) table_of_U1
  = mkOutcome (inr unauthorized) table_of_U1 []
  /\ run dynamodb example_runtime (updateTodoHandler event) table_of_U1
     = mkOutcome (inr unauthorized) table_of_U1 [].
Proof.
  intros event.
  destruct (missing_subject_is_unauthorized (H := example_host)
              dynamodb example_runtime event table_of_U1 JUndefined
              eq_refl (or_introl eq_refl))
    as (_ & _ & Hcreate & _ & Hupdate & _).
  split; [exact Hcreate | exact Hupdate].
Defined.

(** A token whose [claims] is a string: [claims.sub] is then the method
    [String.prototype.sub], which is truthy.  The handler does not answer
    401: it sends a write whose [userId] is that function, the store
    refuses the item for its missing key, and the answer is 500. *)
Lemma string_claims_example :
  let event :=
    Event.mk (JObj [("authorizer", JObj [("claims", JStr "abc")])]) JNull
      (body_of buy_milk) in
  let o := run dynamodb example_runtime (createTodoHandler event) ∅ in
  claimed_sub event = JFun "sub"
  /\ result o = inr create_failed
  /\ final o = ∅
  /\ exists item,
       sent o = [PutCommand (put_params item)]
       /\ assoc "userId" item = JFun "sub".
Proof.
  intros event o.
  split; [reflexivity |]. split; [reflexivity |]. split; [reflexivity |].
  eexists. split; reflexivity.
Qed.

(** An event without [pathParameters]: update and delete answer 500. *)
Lemma absent_path_parameters_witness :
  let event := request (JStr "U1") JUndefined (body_of buy_milk) in
  run dynamodb example_runtime (updateTodoHandler event) table_of_U1
  = mkOutcome (inr update_failed) table_of_U1 []
  /\ run dynamodb example_runtime (deleteTodoHandler event) table_of_U1
     = mkOutcome (inr delete_failed) table_of_U1 [].
Proof.
  apply (absent_path_parameters_is_500 (H := example_host) dynamodb example_runtime
           (request (JStr "U1") JUndefined (body_of buy_milk)) table_of_U1
           eq_refl eq_refl).
Defined.


(** The key-schema error of the store is answered with 400. *)
Lemma update_store_failure_witness :
  let event := request (JStr "U1") todo_X (body_of buy_milk) in
  run (rejecting key_mismatch) example_runtime (updateTodoHandler event) tt
  = mkOutcome (inr invalid_key) tt
      [UpdateCommand
         (update_params (JStr "U1") (JStr "X")
            (stamp (instant example_runtime)
               (mkBuilder ["#t = :t"] [(":t", JStr "Buy milk")]
                  [("#t", JStr "title")])))].
Proof.
  intros event.
  exact (proj1 (update_store_failure (H := example_host) (rejecting key_mismatch) example_runtime
                  event tt tt
                  (UpdateCommand
                     (update_params (JStr "U1") (JStr "X")
                        (stamp (instant example_runtime)
                           (mkBuilder ["#t = :t"] [(":t", JStr "Buy milk")]
                              [("#t", JStr "title")]))))
                  [] key_mismatch eq_refl eq_refl)).
Defined.

(** A body with an unrecognized field only reaches the store. *)
Lemma unrecognized_fields_witness :
  let event :=
    request (JStr "U1") todo_X (body_of (JObj [("priority", JStr "high")])) in
  sent (run dynamodb example_runtime (updateTodoHandler event) table_of_U1)
  = [UpdateCommand
       (JObj [("TableName", JStr "Todos");
              ("Key", JObj [("userId", JStr "U1"); ("todoId", JStr "X")]);
              ("UpdateExpression", JStr "SET updatedAt = :ua");
              ("ExpressionAttributeValues",
               JObj [(":ua", JStr "2024-05-01T10:00:00.000Z")]);
              ("ReturnValues", JStr "ALL_NEW");
              ("ExpressionAttributeNames", JObj [])])].
Proof.
  intros event.
  rewrite (unrecognized_fields_reach_the_store (H := example_host) dynamodb example_runtime
             event table_of_U1 [("priority", JStr "high")]
             eq_refl eq_refl eq_refl);
    [reflexivity | | |];
    (constructor; [simpl; discriminate | constructor]).
Defined.


(** A description that is [null] is written as the empty string; one
    that is [true] is refused. *)
Lemma create_description_check_witness :
  let with_null := JObj [("title", JStr "Buy milk"); ("description", JNull)] in
  let with_true := JObj [("title", JStr "Buy milk"); ("description", JBool true)] in
  (exists item,
      sent (run dynamodb example_runtime
              (createTodoHandler (request (JStr "U1") JNull (body_of with_null))) ∅)
      = [PutCommand (put_params item)]
      /\ assoc "description" item = JStr "")
  /\ run dynamodb example_runtime
       (createTodoHandler (request (JStr "U1") JNull (body_of with_true))) ∅
     = mkOutcome (inr description_not_string) ∅ [].
Proof.
  intros with_null with_true. split.
  - destruct (create_description_check (H := example_host) dynamodb example_runtime
                (request (JStr "U1") JNull (body_of with_null)) ∅
                with_null "Buy milk" eq_refl eq_refl eq_refl
                ltac:(discriminate) ltac:(discriminate) ltac:(discriminate))
      as [_ Hfalsy].
    destruct (Hfalsy eq_refl) as (item & Hrun & Hdesc & _).
    exists item. rewrite Hrun. split; [reflexivity | exact Hdesc].
  - destruct (create_description_check (H := example_host) dynamodb example_runtime
                (request (JStr "U1") JNull (body_of with_true)) ∅
                with_true "Buy milk" eq_refl eq_refl eq_refl
                ltac:(discriminate) ltac:(discriminate) ltac:(discriminate))
      as [Htruthy _].
    exact (proj2 (Htruthy eq_refl)).
Defined.

(** The failing input of C5 on the table.  The body [{"title": "Buy
    milk", "description": null}] carries a description that is present
    and not a string; the request is not refused with 400: the item is
    written, with the empty string as description, and the answer is
    201. *)
Lemma null_description_is_accepted :
  let event :=
    request (JStr "U1") JNull
      (body_of (JObj [("title", JStr "Buy milk"); ("description", JNull)])) in
  let o := run dynamodb example_runtime (createTodoHandler event) ∅ in
  JSON_parse (Event.body event)
  = inr (JObj [("title", JStr "Buy milk"); ("description", JNull)])
  /\ (exists r, result o = inr r /\ statusCode r = 201%Z)
  /\ length (sent o) = 1%nat
  /\ (exists item, final o !! ("U1", fresh_uuid example_runtime) = Some item
                   /\ assoc "description" item = JStr "")
  /\ ~ (exists r, result o = inr r /\ statusCode r = 400%Z /\ sent o = []).
Proof.
  intros event o.
  split; [reflexivity |].
  split; [eexists; split; reflexivity |].
  split; [reflexivity |].
  split; [eexists; split; [vm_compute; reflexivity | reflexivity] |].
  intros (r & _ & _ & Hsent). discriminate Hsent.
Qed.

(** Deleting twice. *)
Lemma delete_absent_witness :
  let event := request (JStr "U1") todo_X JNull in
  let once := run dynamodb example_runtime (deleteTodoHandler event) table_of_U1 in
  result once = inr deleted
  /\ result (run dynamodb example_runtime (deleteTodoHandler event) (final once))
     = inr not_found_delete.
Proof.
  intros event once.
  destruct (delete_absent_is_not_found (H := example_host) (H0 := example_service)
              example_runtime event table_of_U1
              "U1" "X" eq_refl ltac:(discriminate) eq_refl ltac:(discriminate))
    as (_ & _ & Hkey & _).
  destruct (Hkey ltac:(split; vm_compute; discriminate)) as [_ Htwice].
  destruct (Htwice milk_item eq_refl) as [Hfirst Hsecond].
  subst once. rewrite Hfirst. cbn [final result].
  rewrite Hsecond. split; reflexivity.
Defined.

(** C8, counterexample.  An id of 1025 bytes is no key of the table:
    though the table has no item under it, the store refuses the delete
    and the handler answers 500, not 404. *)
Lemma oversized_id_is_refused :
  let event := request (JStr "U1") (JObj [("id", JStr long_id)]) JNull in
  let o := run dynamodb example_runtime (deleteTodoHandler event) table_of_U1 in
  utf8_length long_id = 1025%N
  /\ table_of_U1 !! ("U1", long_id) = None
  /\ result o = inr delete_failed
  /\ statusCode delete_failed = 500%Z
  /\ final o = table_of_U1
  /\ ~ (exists r, result o = inr r /\ statusCode r = 404%Z).
Proof.
  intros event o.
  assert (Hrun : o = mkOutcome (inr delete_failed) table_of_U1
                       [DeleteCommand (delete_params (JStr "U1") (JStr long_id))])
    by (vm_compute; reflexivity).
  split; [vm_compute; reflexivity |].
  split; [vm_compute; reflexivity |].
  rewrite Hrun. cbn [result final].
  split; [reflexivity |]. split; [reflexivity |]. split; [reflexivity |].
  intros (r & [= <-] & Hcode). discriminate Hcode.
Qed.

(** Updating an id that was never created. *)
Lemma update_absent_key_witness :
  let event := request (JStr "U1") todo_X (body_of buy_milk) in
  let o := run dynamodb example_runtime (updateTodoHandler event) ∅ in
  (exists r, result o = inr r /\ statusCode r = 200%Z)
  /\ is_Some (final o !! ("U1", "X")).
Proof.
  intros event o.
  destruct (update_absent_key_upserts (H := example_host) (H0 := example_service)
              example_runtime event ∅
              "U1" "X" "Buy milk" buy_milk
              eq_refl ltac:(discriminate) eq_refl ltac:(discriminate)
              eq_refl eq_refl ltac:(discriminate) eq_refl eq_refl eq_refl
              ltac:(split; vm_compute; discriminate)
              ltac:(vm_compute; discriminate))
    as (Hres & Hstatus & _ & Hlookup & _ & _).
  split; [eexists; split; [exact Hres | exact Hstatus] |].
  eexists. exact Hlookup.
Defined.

(** U2 updates, then deletes, the id of an item of U1. *)
Lemma other_owner_witness :
  let event := request (JStr "U2") todo_X (body_of buy_milk) in
  let upd := run dynamodb example_runtime (updateTodoHandler event) table_of_U1 in
  (exists r, result upd = inr r /\ statusCode r = 200%Z)
  /\ is_Some (final upd !! ("U2", "X"))
  /\ final upd !! ("U1", "X") = Some milk_item.
Proof.
  intros event upd.
  destruct (other_owner_update_upserts (H := example_host) (H0 := example_service)
              example_runtime event table_of_U1
              "U1" "U2" "X" "Buy milk" buy_milk milk_item
              eq_refl ltac:(discriminate) eq_refl
              eq_refl ltac:(discriminate) eq_refl ltac:(discriminate)
              eq_refl eq_refl ltac:(discriminate) eq_refl eq_refl
              ltac:(split; vm_compute; discriminate)
              ltac:(vm_compute; discriminate))
    as (Hstatus & Hnew & Hold & _).
  split; [exact Hstatus |]. split; [exact Hnew | exact Hold].
Defined.

End Examples.

(** * The rest of the handlers *)

(** ** Every path of every handler *)

Section AllPaths.

Context `{Host} {S : Type} (send : store_step S) (rt : runtime).

Lemma title_block_cases (v : jsval) (b : builder) :
  (v = JUndefined /\ title_block v b = inr b)
  \/ (exists s, v = JStr s /\ trim s <> ""
                /\ title_block v b
                   = inr (set_value ":t" v
                            (set_name "#t" (JStr "title")
                               (push_expression "#t = :t" b))))
  \/ (v <> JUndefined /\ title_block v b = inl title_not_string).
Proof.
  destruct v as [| | x | f | s | xs | fs | fn];
    try (right; right; split; [discriminate | reflexivity]).
  - left. split; reflexivity.
  - destruct (String.eqb_spec (trim s) "") as [Hblank | Hne].
    + right; right. split; [discriminate |].
      unfold title_block, trims_to_empty. simpl. rewrite Hblank. reflexivity.
    + right; left. exists s. split; [reflexivity |]. split; [exact Hne |].
      apply title_block_string, Hne.
Qed.

Lemma description_block_cases (v : jsval) (b : builder) :
  (v = JUndefined /\ description_block v b = inr b)
  \/ (exists s, v = JStr s
                /\ description_block v b
                   = inr (set_value ":d" v
                            (set_name "#d" (JStr "description")
                               (push_expression "#d = :d" b))))
  \/ (v <> JUndefined /\ typeof v <> "string"
      /\ description_block v b = inl description_not_string).
Proof.
  destruct v as [| | x | f | s | xs | fs | fn];
    try (right; right; split; [discriminate |]; split;
         [discriminate | reflexivity]).
  - left. split; reflexivity.
  - right; left. exists s. split; reflexivity.
Qed.

Lemma status_block_cases (v : jsval) (b : builder) :
  (v = JUndefined /\ status_block v b = inr b)
  \/ (exists s, v = JStr s /\ (s = "pending" \/ s = "completed")
                /\ status_block v b
                   = inr (set_value ":s" v
                            (set_name "#s" (JStr "status")
                               (push_expression "#s = :s" b))))
  \/ (v <> JUndefined /\ array_includes ["pending"; "completed"] v = false
      /\ status_block v b = inl status_not_allowed).
Proof.
  destruct v as [| | x | f | s | xs | fs | fn];
    try (right; right; split; [discriminate |]; split; reflexivity).
  - left. split; reflexivity.
  - unfold status_block. simpl.
    destruct (String.eqb_spec s "pending") as [-> | Hp].
    + right; left. exists "pending". simpl. auto.
    + destruct (String.eqb_spec s "completed") as [-> | Hc].
      * right; left. exists "completed". simpl. auto.
      * right; right. simpl. split; [discriminate |]. split; reflexivity.
Qed.

(** A validation block that returns early returns a 400. *)
Lemma validated_inl (requestBody : jsval) (r : response) :
  validated requestBody = inl r -> answers [400%Z] r.
Proof.
  unfold validated, answers. intros Hv.
  destruct (title_block_cases (member requestBody "title") (mkBuilder [] [] []))
    as [[_ Ht] | [(s & _ & _ & Ht) | [_ Ht]]]; rewrite Ht in Hv;
    try (injection Hv as <-; do 2 eexists; split; [reflexivity | simpl; auto]).
  all: match type of Hv with
       | context [description_block ?v ?b] =>
           destruct (description_block_cases v b)
             as [[_ Hd] | [(d & _ & Hd) | (_ & _ & Hd)]]; rewrite Hd in Hv
       end;
    try (injection Hv as <-; do 2 eexists; split; [reflexivity | simpl; auto]).
  all: match type of Hv with
       | context [status_block ?v ?b] =>
           destruct (status_block_cases v b)
             as [[_ Hs] | [(st & _ & _ & Hs) | (_ & _ & Hs)]]; rewrite Hs in Hv
       end;
    try discriminate;
    injection Hv as <-; do 2 eexists; split; [reflexivity | simpl; auto].
Qed.


(** The title check of [createTodoHandler] passes exactly on a string
    that is not blank. *)
Lemma create_title_check (v : jsval) :
  negb (truthy v) || negb (typeof v =? "string") || trims_to_empty v = false ->
  exists s, v = JStr s /\ trim s <> "".
Proof.
  destruct v as [| | x | f | s | xs | fs | fn]; simpl;
    try (destruct x); try (destruct (negb _)); try discriminate.
  intros Hc. exists s. split; [reflexivity |].
  apply orb_false_elim in Hc as [_ Hc]. apply String.eqb_neq, Hc.
Qed.

(** [createTodoHandler], path by path: an early 400, 401 or 500 with
    nothing sent, or the write of the new item followed by 201 or 500. *)
Lemma create_run_cases (event : Event.t) (s : S) :
  (exists code b,
      In code [400%Z; 401%Z; 500%Z]
      /\ run send rt (createTodoHandler event) s
         = mkOutcome (inr (generateResponse code b)) s [])
  \/ (exists requestBody ttl,
        truthy (claimed_sub event) = true
        /\ JSON_parse (Event.body event) = inr requestBody
        /\ member requestBody "title" = JStr ttl
        /\ trim ttl <> ""
        /\ truthy (member requestBody "description")
           && negb (typeof (member requestBody "description") =? "string")
           = false
        /\ let item :=
             new_item (claimed_sub event) (fresh_uuid rt) (JStr ttl)
               (member requestBody "description") (instant rt) in
           let c := PutCommand (put_params item) in
           run send rt (createTodoHandler event) s
           = mkOutcome (inr (create_response item (fst (send c s))))
               (snd (send c s)) [c]).
Proof.
  destruct (truthy (claimed_sub event)) eqn:Hsub.
  2: { left. exists 401%Z. eexists. split; [simpl; auto |].
       unfold createTodoHandler. cbv zeta. rewrite Hsub. reflexivity. }
  destruct (JSON_parse (Event.body event)) as [m | requestBody] eqn:Hparse.
  { left. exists 500%Z. eexists. split; [simpl; auto |].
    unfold createTodoHandler, parse_json. cbv zeta. rewrite Hsub, Hparse.
    reflexivity. }
  destruct (nullish requestBody) eqn:Hbody.
  { left. exists 500%Z. eexists. split; [simpl; auto |].
    unfold createTodoHandler, parse_json, destructure. cbv zeta.
    rewrite Hsub, Hparse. simpl. rewrite Hbody. reflexivity. }
  destruct (negb (truthy (member requestBody "title"))
            || negb (typeof (member requestBody "title") =? "string")
            || trims_to_empty (member requestBody "title")) eqn:Hcheck.
  { left. exists 400%Z. eexists. split; [simpl; auto |].
    unfold createTodoHandler, parse_json, destructure. cbv zeta.
    rewrite Hsub, Hparse. simpl. rewrite Hbody. simpl. rewrite Hcheck.
    reflexivity. }
  destruct (create_title_check _ Hcheck) as (ttl & Htitle & Htrim).
  pose proof (create_after_title event requestBody ttl Hsub Hparse Htitle Htrim)
    as Hpath.
  destruct (truthy (member requestBody "description")
            && negb (typeof (member requestBody "description") =? "string"))
    eqn:Hdesc.
  - left. exists 400%Z. eexists. split; [simpl; auto |].
    rewrite Hpath. reflexivity.
  - right. exists requestBody, ttl.
    repeat (split; [first [assumption | reflexivity] |]).
    destruct Hpath as (k & Heq & Hk).
    exact (run_create_command send rt event s _ k Heq Hk).
Qed.

(** [getTodosHandler], path by path. *)
Lemma list_run_cases (event : Event.t) (s : S) :
  (truthy (claimed_sub event) = false
   /\ run send rt (getTodosHandler event) s = mkOutcome (inr unauthorized) s [])
  \/ (truthy (claimed_sub event) = true
      /\ let c := QueryCommand (query_params (claimed_sub event)) in
         run send rt (getTodosHandler event) s
         = mkOutcome (inr (list_response (fst (send c s)))) (snd (send c s)) [c]).
Proof.
  unfold getTodosHandler. cbv zeta.
  destruct (truthy (claimed_sub event)) eqn:Hsub; [right | left];
    (split; [reflexivity |]); [| reflexivity].
  simpl. unfold query_params.
  destruct (send _ s) as [[e | data] s']; simpl; [reflexivity |].
  unfold get_member. destruct (nullish data); reflexivity.
Qed.

(** [deleteTodoHandler], path by path. *)
Lemma delete_run_cases (event : Event.t) (s : S) :
  (exists code b,
      In code [400%Z; 401%Z; 500%Z]
      /\ run send rt (deleteTodoHandler event) s
         = mkOutcome (inr (generateResponse code b)) s [])
  \/ (truthy (claimed_sub event) = true
      /\ truthy (member (Event.pathParameters event) "id") = true
      /\ let c :=
           DeleteCommand
             (delete_params (claimed_sub event)
                (member (Event.pathParameters event) "id")) in
         run send rt (deleteTodoHandler event) s
         = mkOutcome (inr (delete_response (fst (send c s))))
             (snd (send c s)) [c]).
Proof.
  unfold deleteTodoHandler, get_member. cbv zeta.
  destruct (truthy (claimed_sub event)) eqn:Hsub.
  2: { left. exists 401%Z. eexists. split; [simpl; auto | reflexivity]. }
  destruct (nullish (Event.pathParameters event)) eqn:Hpath.
  { left. exists 500%Z. eexists. split; [simpl; auto | reflexivity]. }
  simpl.
  destruct (truthy (member (Event.pathParameters event) "id")) eqn:Hid.
  2: { left. exists 400%Z. eexists. split; [simpl; auto | reflexivity]. }
  right. split; [reflexivity |]. split; [reflexivity |].
  simpl. unfold delete_params.
  destruct (send _ s) as [[e | data] s']; simpl; [reflexivity |].
  destruct (nullish data); [reflexivity |]. simpl.
  destruct (truthy (member data "Attributes")); reflexivity.
Qed.

(** [updateTodoHandler], path by path. *)
Lemma update_run_cases (event : Event.t) (s : S) :
  (exists code b,
      In code [400%Z; 401%Z; 500%Z]
      /\ run send rt (updateTodoHandler event) s
         = mkOutcome (inr (generateResponse code b)) s [])
  \/ (exists requestBody b,
        truthy (claimed_sub event) = true
        /\ truthy (member (Event.pathParameters event) "id") = true
        /\ JSON_parse (Event.body event) = inr requestBody
        /\ nullish requestBody = false
        /\ validated requestBody = inr b
        /\ let c :=
             UpdateCommand
               (update_params (claimed_sub event)
                  (member (Event.pathParameters event) "id")
                  (stamp (instant rt) b)) in
           run send rt (updateTodoHandler event) s
           = mkOutcome (inr (reply_response (fst (send c s))))
               (snd (send c s)) [c]).
Proof.
  destruct (truthy (claimed_sub event)) eqn:Hsub.
  2: { left. exists 401%Z. eexists. split; [simpl; auto |].
       unfold updateTodoHandler. cbv zeta. rewrite Hsub. reflexivity. }
  destruct (nullish (Event.pathParameters event)) eqn:Hpath.
  { left. exists 500%Z. eexists. split; [simpl; auto |].
    unfold updateTodoHandler, get_member. cbv zeta.
    rewrite Hsub, Hpath. reflexivity. }
  destruct (truthy (member (Event.pathParameters event) "id")) eqn:Hid.
  2: { left. exists 400%Z. eexists. split; [simpl; auto |].
       unfold updateTodoHandler, get_member. cbv zeta.
       rewrite Hsub, Hpath. simpl. rewrite Hid. reflexivity. }
  destruct (JSON_parse (Event.body event)) as [m | requestBody] eqn:Hparse.
  { left. exists 500%Z. eexists. split; [simpl; auto |].
    unfold updateTodoHandler, get_member, parse_json. cbv zeta.
    rewrite Hsub, Hpath. simpl. rewrite Hid. simpl. rewrite Hparse.
    reflexivity. }
  destruct (nullish requestBody) eqn:Hbody.
  { left. exists 500%Z. eexists. split; [simpl; auto |].
    unfold updateTodoHandler, get_member, parse_json, destructure. cbv zeta.
    rewrite Hsub, Hpath. simpl. rewrite Hid. simpl. rewrite Hparse. simpl.
    rewrite Hbody. reflexivity. }
  pose proof (update_after_parse event requestBody Hsub Hid Hparse Hbody) as Hv.
  destruct (validated requestBody) as [r | b] eqn:Hval.
  - left. destruct (validated_inl _ _ Hval) as (code & body & -> & Hcode).
    exists code, body. split; [simpl in *; tauto |]. rewrite Hv. reflexivity.
  - right. exists requestBody, b.
    repeat (split; [first [assumption | reflexivity] |]).
    destruct Hv as (k & Heq & Hk).
    exact (run_update_command send rt event s _ k Heq Hk).
Qed.

End AllPaths.

(** ** What holds against every store *)

Section EveryStore.

Context `{Host} {S : Type} (send : store_step S) (rt : runtime).

Lemma answers_weaken (codes codes' : list Z) (r : response) :
  incl codes codes' -> answers codes r -> answers codes' r.
Proof. intros Hincl (code & b & -> & Hin). exists code, b. auto. Qed.

Lemma create_response_answers (item : list (string * jsval)) (r : Error + jsval) :
  answers [201%Z; 500%Z] (create_response item r).
Proof.
  destruct r; do 2 eexists; (split; [reflexivity | simpl; auto]).
Qed.

Lemma list_response_answers (r : Error + jsval) :
  answers [200%Z; 500%Z] (list_response r).
Proof.
  destruct r as [e | data]; simpl; [| destruct (nullish data)];
    do 2 eexists; (split; [reflexivity | simpl; auto]).
Qed.

Lemma delete_response_answers (r : Error + jsval) :
  answers [200%Z; 404%Z; 500%Z] (delete_response r).
Proof.
  destruct r as [e | data]; simpl;
    [| destruct (nullish data); [| destruct (truthy _)]];
    do 2 eexists; (split; [reflexivity | simpl; auto]).
Qed.

Lemma reply_response_answers (r : Error + jsval) :
  answers [200%Z; 400%Z; 404%Z; 500%Z] (reply_response r).
Proof.
  destruct r as [e | data]; simpl;
    [destruct (key_schema_mismatch e)
    | destruct (nullish data); [| destruct (truthy _)]];
    do 2 eexists; (split; [reflexivity | simpl; auto 6]).
Qed.

(** X1.  Whatever the event and whatever the store does, each handler
    returns a response built by [generateResponse] (no error escapes it),
    with a status code from its own list, after sending at most one
    command. *)
Theorem handlers_always_answer (event : Event.t) (s : S) :
  answered [200%Z] (run send rt (optionsHandler event) s)
  /\ answered [201%Z; 400%Z; 401%Z; 500%Z]
       (run send rt (createTodoHandler event) s)
  /\ answered [200%Z; 401%Z; 500%Z] (run send rt (getTodosHandler event) s)
  /\ answered [200%Z; 400%Z; 401%Z; 404%Z; 500%Z]
       (run send rt (updateTodoHandler event) s)
  /\ answered [200%Z; 400%Z; 401%Z; 404%Z; 500%Z]
       (run send rt (deleteTodoHandler event) s).
Proof.
  unfold answered. repeat apply conj.
  - eexists. split; [reflexivity |]. split; [| simpl; lia].
    do 2 eexists. split; [reflexivity | simpl; auto].
  - destruct (create_run_cases send rt event s)
      as [(code & b & Hcode & ->) | (rb & ttl & _ & _ & _ & _ & _ & ->)];
      eexists; (split; [reflexivity |]); (split; [| simpl; lia]).
    + exists code, b. split; [reflexivity | simpl in *; tauto].
    + eapply answers_weaken; [| apply create_response_answers].
      intros x Hx. simpl in *. tauto.
  - destruct (list_run_cases send rt event s) as [[_ ->] | [_ ->]];
      eexists; (split; [reflexivity |]); (split; [| simpl; lia]).
    + do 2 eexists. split; [reflexivity | simpl; auto].
    + eapply answers_weaken; [| apply list_response_answers].
      intros x Hx. simpl in *. tauto.
  - destruct (update_run_cases send rt event s)
      as [(code & b & Hcode & ->) | (rb & b & _ & _ & _ & _ & _ & ->)];
      eexists; (split; [reflexivity |]); (split; [| simpl; lia]).
    + exists code, b. split; [reflexivity | simpl in *; tauto].
    + eapply answers_weaken; [| apply reply_response_answers].
      intros x Hx. simpl in *. tauto.
  - destruct (delete_run_cases send rt event s)
      as [(code & b & Hcode & ->) | (_ & _ & ->)];
      eexists; (split; [reflexivity |]); (split; [| simpl; lia]).
    + exists code, b. split; [reflexivity | simpl in *; tauto].
    + eapply answers_weaken; [| apply delete_response_answers].
      intros x Hx. simpl in *. tauto.
Qed.

(** X2.  Ownership by key.  Let [sub] be the subject the token of the
    event carries.  Whatever the path and the body say, a command a
    handler sends is of that handler's kind, names the table of the
    environment and addresses the partition of [sub]: the item written
    has [sub] as its [userId], the query has the key condition
    [userId = :u] with [sub] for [:u], and update and delete have the key
    made of [sub] and the id of the path. *)
Theorem commands_address_the_claimed_owner (event : Event.t) (s : S)
    (c : command) (sub : jsval) :
  opt_member
    (opt_member (opt_member (Event.requestContext event) "authorizer") "claims")
    "sub" = sub ->
  (In c (sent (run send rt (createTodoHandler event) s)) ->
   exists item,
     c = PutCommand (JObj [("TableName", TODOS_TABLE_NAME); ("Item", JObj item)])
     /\ assoc "userId" item = sub)
  /\ (In c (sent (run send rt (getTodosHandler event) s)) ->
      c = QueryCommand
            (JObj [("TableName", TODOS_TABLE_NAME);
                   ("KeyConditionExpression", JStr "userId = :u");
                   ("ExpressionAttributeValues", JObj [(":u", sub)])]))
  /\ (In c (sent (run send rt (updateTodoHandler event) s)) ->
      exists params,
        c = UpdateCommand (JObj params)
        /\ assoc "TableName" params = TODOS_TABLE_NAME
        /\ assoc "Key" params
           = JObj [("userId", sub);
                   ("todoId", member (Event.pathParameters event) "id")]
        /\ assoc "ConditionExpression" params = JUndefined)
  /\ (In c (sent (run send rt (deleteTodoHandler event) s)) ->
      c = DeleteCommand
            (JObj [("TableName", TODOS_TABLE_NAME);
                   ("Key",
                    JObj [("userId", sub);
                          ("todoId", member (Event.pathParameters event) "id")]);
                   ("ReturnValues", JStr "ALL_OLD")])).
Proof.
  intros Hclaim. fold (claimed_sub event) in Hclaim. subst sub.
  repeat apply conj.
  - destruct (create_run_cases send rt event s)
      as [(code & b & _ & ->) | (rb & ttl & _ & _ & _ & _ & _ & ->)];
      simpl; [tauto |].
    intros [<- | []]. eexists. split; reflexivity.
  - destruct (list_run_cases send rt event s) as [[_ ->] | [_ ->]];
      simpl; [tauto |].
    intros [<- | []]. reflexivity.
  - destruct (update_run_cases send rt event s)
      as [(code & b & _ & ->) | (rb & b & _ & _ & _ & _ & _ & ->)];
      simpl; [tauto |].
    intros [<- | []]. eexists. repeat split.
  - destruct (delete_run_cases send rt event s)
      as [(code & b & _ & ->) | (_ & _ & ->)]; simpl; [tauto |].
    intros [<- | []]. reflexivity.
Qed.

(** The validation blocks hand on a builder exactly when each field is
    absent or passes its check; the builder then holds the fields given. *)
Lemma validated_inr (requestBody : jsval) (b : builder) :
  validated requestBody = inr b ->
  title_ok (member requestBody "title")
  /\ description_ok (member requestBody "description")
  /\ status_ok (member requestBody "status")
  /\ b = collected (member requestBody "title")
           (member requestBody "description") (member requestBody "status").
Proof.
  unfold validated, collected, title_ok, description_ok, status_ok.
  intros Hv.
  destruct (title_block_cases (member requestBody "title") (mkBuilder [] [] []))
    as [[Ht Hbt] | [(s & Ht & Htrim & Hbt) | [_ Hbt]]]; rewrite Hbt in Hv;
    try discriminate;
    match type of Hv with
    | context [description_block ?v ?b] =>
        destruct (description_block_cases v b)
          as [[Hd Hbd] | [(d & Hd & Hbd) | (_ & _ & Hbd)]]; rewrite Hbd in Hv
    end; try discriminate;
    match type of Hv with
    | context [status_block ?v ?b] =>
        destruct (status_block_cases v b)
          as [[Hs Hbs] | [(st & Hs & Hst & Hbs) | (_ & _ & Hbs)]];
          rewrite Hbs in Hv
    end; try discriminate;
    injection Hv as <-; rewrite Ht, Hd, Hs;
    (repeat apply conj; [..| reflexivity]);
    try (left; reflexivity); try (right; eexists; eauto; fail);
    try (destruct Hst as [-> | ->]; auto).
Qed.

Lemma validated_inl_cases (requestBody : jsval) :
  ~ title_ok (member requestBody "title")
  \/ ~ description_ok (member requestBody "description")
  \/ ~ status_ok (member requestBody "status") ->
  exists b, validated requestBody = inl (generateResponse 400 b).
Proof.
  intros Hbad.
  destruct (validated requestBody) as [r | b] eqn:Hv.
  - destruct (validated_inl _ _ Hv) as (code & body & -> & [<- | []]).
    eexists. reflexivity.
  - apply validated_inr in Hv as (Ht & Hd & Hs & _). tauto.
Qed.

(** X3.  An update assigns, through its attribute names, only [title],
    [description] and [status]: whatever keys the body carries, the
    command never names [userId], [todoId], [createdAt] or any other
    attribute. *)
Theorem update_names_only_its_fields (event : Event.t) (s : S)
    (c : command) (a : jsval) :
  In c (sent (run send rt (updateTodoHandler event) s)) ->
  In a (named_attributes c) ->
  In a [JStr "title"; JStr "description"; JStr "status"].
Proof.
  destruct (update_run_cases send rt event s)
    as [(code & b & _ & ->) | (rb & b & _ & _ & _ & _ & Hval & ->)];
    simpl; [tauto |].
  intros [<- | []].
  apply validated_inr in Hval as (Ht & Hd & Hs & ->).
  unfold collected, with_field.
  destruct Ht as [-> | (x & -> & _)], Hd as [-> | (d & ->)],
    Hs as [-> | [-> | ->]]; simpl; tauto.
Qed.

(** X4.  In create, list and delete every rejection of the store call,
    whatever the error is (a key-schema validation error included), ends
    in the handler's one 500 response. *)
Theorem store_failure_is_500 (handler : Event.t -> prog response)
    (failed : response) (event : Event.t) (s s' : S)
    (c : command) (rest : list command) (e : Error) :
  In (handler, failed) plain_catch ->
  sent (run send rt (handler event) s) = c :: rest ->
  send c s = (inl e, s') ->
  run send rt (handler event) s = mkOutcome (inr failed) s' [c]
  /\ statusCode failed = 500%Z.
Proof.
  intros Hin Hsent Hsend. unfold plain_catch in Hin. simpl in Hin.
  destruct Hin as [Heq | [Heq | [Heq | []]]]; injection Heq as <- <-;
    (split; [| reflexivity]).
  - destruct (create_run_cases send rt event s)
      as [(code & b & _ & Hrun) | (rb & ttl & _ & _ & _ & _ & _ & Hrun)];
      rewrite Hrun in Hsent |- *; simpl in Hsent; [discriminate |].
    injection Hsent as <- _. rewrite Hsend. reflexivity.
  - destruct (list_run_cases send rt event s) as [[_ Hrun] | [_ Hrun]];
      rewrite Hrun in Hsent |- *; simpl in Hsent; [discriminate |].
    injection Hsent as <- _. rewrite Hsend. reflexivity.
  - destruct (delete_run_cases send rt event s)
      as [(code & b & _ & Hrun) | (_ & _ & Hrun)];
      rewrite Hrun in Hsent |- *; simpl in Hsent; [discriminate |].
    injection Hsent as <- _. rewrite Hsend. reflexivity.
Qed.


(** X6.  An update request with owner, id and a parsed body in which a
    field is present but fails its check (a title that is not a non-blank
    string, a description that is not a string, a status other than
    pending or completed) is answered with 400, and nothing is sent. *)
Theorem update_invalid_field_is_400 (event : Event.t) (s : S)
    (requestBody : jsval) :
  truthy (claimed_sub event) = true ->
  truthy (member (Event.pathParameters event) "id") = true ->
  JSON_parse (Event.body event) = inr requestBody ->
  nullish requestBody = false ->
  ~ title_ok (member requestBody "title")
  \/ ~ description_ok (member requestBody "description")
  \/ ~ status_ok (member requestBody "status") ->
  exists b,
    run send rt (updateTodoHandler event) s
    = mkOutcome (inr (generateResponse 400 b)) s [].
Proof.
  intros Hsub Hid Hparse Hbody Hbad.
  pose proof (update_after_parse event requestBody Hsub Hid Hparse Hbody) as Hv.
  destruct (validated_inl_cases _ Hbad) as (b & Hval).
  rewrite Hval in Hv. exists b. rewrite Hv. reflexivity.
Qed.

End EveryStore.

(** ** On the table *)

Lemma assoc_set_prop (k k' : string) (v : jsval) (fs : list (string * jsval)) :
  assoc k (set_prop k' v fs) = if k =? k' then v else assoc k fs.
Proof.
  induction fs as [| [k0 v0] fs IH]; simpl.
  - destruct (k =? k'); reflexivity.
  - destruct (String.eqb_spec k' k0) as [-> | Hne]; simpl.
    + destruct (k =? k0); reflexivity.
    + destruct (String.eqb_spec k k0) as [-> | Hne'].
      * destruct (String.eqb_spec k0 k') as [-> | _]; [congruence | reflexivity].
      * exact IH.
Qed.

Lemma assoc_opt_set (k k' : string) (v : jsval) (fs : list (string * jsval)) :
  assoc k (opt_set k' v fs)
  = if (k =? k') && negb (is_undefined v) then v else assoc k fs.
Proof.
  unfold opt_set. destruct (is_undefined v); simpl.
  - rewrite andb_false_r. reflexivity.
  - rewrite andb_true_r. apply assoc_set_prop.
Qed.

Section UpdateOnTheTable.

Context `{Host} `{Service} (rt : runtime).

Lemma validated_ok (requestBody : jsval) :
  title_ok (member requestBody "title") ->
  description_ok (member requestBody "description") ->
  status_ok (member requestBody "status") ->
  validated requestBody
  = inr (collected (member requestBody "title")
           (member requestBody "description") (member requestBody "status")).
Proof.
  unfold validated, collected, with_field.
  intros [-> | (s & -> & Htrim)] [-> | (d & ->)] [-> | [-> | ->]];
    try rewrite (title_block_string s _ Htrim); reflexivity.
Qed.

(** An update by owner [u] of id [t], a key within the limits, whose
    fields pass their checks.  With no field given the store refuses the
    command (its attribute names are empty) and the handler answers 500;
    otherwise the store writes the patched item, on the item it had at
    [(u, t)] or on the bare key, and the handler answers 200 with it,
    unless the patched item is above 400 KB: then the store refuses and
    the handler answers 500. *)
Lemma update_on_table (event : Event.t) (tbl : Table) (u t : string)
    (requestBody : jsval) :
  claimed_sub event = JStr u -> u <> "" ->
  member (Event.pathParameters event) "id" = JStr t -> t <> "" ->
  JSON_parse (Event.body event) = inr requestBody ->
  nullish requestBody = false ->
  title_ok (member requestBody "title") ->
  description_ok (member requestBody "description") ->
  status_ok (member requestBody "status") ->
  key_fits u t ->
  let title := member requestBody "title" in
  let description := member requestBody "description" in
  let status := member requestBody "status" in
  let c :=
    UpdateCommand
      (update_params (JStr u) (JStr t)
         (stamp (instant rt) (collected title description status))) in
  let written :=
    patched title description status (instant rt)
      (default [("userId", JStr u); ("todoId", JStr t)] (tbl !! (u, t))) in
  run dynamodb rt (updateTodoHandler event) tbl
  = if is_undefined title && is_undefined description && is_undefined status
    then mkOutcome (inr update_failed) tbl [c]
    else if (item_size written <=? max_item_size)%N
    then mkOutcome (inr (updated (JObj written))) (<[(u, t) := written]> tbl) [c]
    else mkOutcome (inr update_failed) tbl [c].
Proof.
  intros Hsub Hu Hid Ht Hparse Hbody Htitle Hdesc Hstatus Hfits.
  assert (Hsub' : truthy (claimed_sub event) = true)
    by (rewrite Hsub; apply nonempty_truthy, Hu).
  assert (Hid' : truthy (member (Event.pathParameters event) "id") = true)
    by (rewrite Hid; apply nonempty_truthy, Ht).
  pose proof (update_after_parse event requestBody Hsub' Hid' Hparse Hbody) as Hv.
  rewrite (validated_ok requestBody Htitle Hdesc Hstatus) in Hv.
  destruct Hv as (k & Heq & Hk).
  rewrite (run_update_command dynamodb rt event tbl _ k Heq Hk).
  rewrite Hsub, Hid. cbv zeta.
  pose proof (primary_key_strings u t Hu Ht Hfits) as Hkey.
  destruct Htitle as [-> | (s & -> & _)], Hdesc as [-> | (d & ->)],
    Hstatus as [-> | [-> | ->]];
    unfold dynamodb;
    first
      [ erewrite (ddb_update_outcome _ tbl _ _ u t)
          by first [reflexivity | exact Hkey];
        match goal with
        | |- context [item_size (patched ?a ?b ?c ?d ?e)] =>
            change (apply_actions _ _) with (patched a b c d e);
            destruct (item_size (patched a b c d e) <=? max_item_size)%N
        end; reflexivity
      | reflexivity ].
Qed.

End UpdateOnTheTable.

Lemma assoc_patched (k : string) (title description status : jsval)
    (ua : string) (it : list (string * jsval)) :
  assoc k (patched title description status ua it)
  = if k =? "updatedAt" then JStr ua
    else if (k =? "status") && negb (is_undefined status) then status
    else if (k =? "description") && negb (is_undefined description)
    then description
    else if (k =? "title") && negb (is_undefined title) then title
    else assoc k it.
Proof.
  unfold patched. rewrite assoc_set_prop, !assoc_opt_set. reflexivity.
Qed.

Lemma insert_by_key_perm (x : (string * string) * list (string * jsval))
    (l : list ((string * string) * list (string * jsval))) :
  insert_by_key x l ≡ₚ x :: l.
Proof.
  induction l as [| y l IH]; simpl; [reflexivity |].
  destruct (String.leb _ _); [reflexivity |].
  rewrite IH. apply Permutation_swap.
Qed.

Lemma sorted_items_perm (l : list ((string * string) * list (string * jsval))) :
  foldr insert_by_key [] l ≡ₚ l.
Proof.
  induction l as [| x l IH]; simpl; [reflexivity |].
  rewrite insert_by_key_perm, IH. reflexivity.
Qed.

(** The entries of the partition of [u] are the entries of the table
    under the keys of [u]. *)
Lemma elem_of_partition_entries (u : string) (tbl : Table)
    (e : (string * string) * list (string * jsval)) :
  e ∈ partition_entries u tbl
  <-> exists t, fst e = (u, t) /\ tbl !! (u, t) = Some (snd e).
Proof.
  unfold partition_entries. rewrite sorted_items_perm, list_elem_of_filter.
  destruct e as [[u' t] it]. simpl. rewrite elem_of_map_to_list. split.
  - intros [-> Hlook]. eauto.
  - intros (t' & [= -> ->] & Hlook). auto.
Qed.

(** The items of the partition of [u] are the items stored under the
    keys of [u]. *)
Lemma elem_of_partition_items (u : string) (tbl : Table) (v : jsval) :
  v ∈ partition_items u tbl
  <-> exists t it, v = JObj it /\ tbl !! (u, t) = Some it.
Proof.
  unfold partition_items. rewrite list_elem_of_fmap. split.
  - intros (e & -> & Hin).
    apply elem_of_partition_entries in Hin as (t & _ & Hlook). eauto.
  - intros (t & it & -> & Hlook).
    exists ((u, t), it). split; [reflexivity |].
    apply elem_of_partition_entries. eauto.
Qed.

Section Pages.

Context `{Service}.

Lemma fill_page_subset (budget : N)
    (entries : list ((string * string) * list (string * jsval))) :
  fill_page budget entries ⊆ entries.
Proof.
  revert budget. induction entries as [| e rest IH]; intros budget; simpl.
  - reflexivity.
  - destruct (item_size (snd e) <=? budget)%N.
    + intros x Hx. apply elem_of_cons in Hx as [-> | Hx].
      * left.
      * right. exact (IH _ x Hx).
    + intros x Hx. apply elem_of_nil in Hx. destruct Hx.
Qed.

Lemma fill_page_all (budget : N)
    (entries : list ((string * string) * list (string * jsval))) :
  (entries_size entries <= budget)%N -> fill_page budget entries = entries.
Proof.
  revert budget. induction entries as [| e rest IH]; intros budget; simpl;
    [reflexivity |].
  intros Hsize.
  assert (Hfit : (item_size (snd e) <=? budget)%N = true)
    by (apply N.leb_le; lia).
  rewrite Hfit, IH by lia. reflexivity.
Qed.

(** A page holds entries of the partition only. *)
Lemma first_page_subset
    (entries : list ((string * string) * list (string * jsval))) :
  first_page entries ⊆ entries.
Proof.
  destruct entries as [| e rest]; simpl; [reflexivity |].
  intros x Hx. apply elem_of_cons in Hx as [-> | Hx].
  - left.
  - right. exact (fill_page_subset _ _ x Hx).
Qed.

(** A partition within 1 MB is returned whole. *)
Lemma first_page_all
    (entries : list ((string * string) * list (string * jsval))) :
  (entries_size entries <= max_page_size)%N -> first_page entries = entries.
Proof.
  destruct entries as [| e rest]; simpl; [reflexivity |].
  intros Hsize. rewrite fill_page_all by lia. reflexivity.
Qed.

Lemma elem_of_page_items (u : string) (view : Table) (v : jsval) :
  v ∈ page_items u view ->
  exists t it, v = JObj it /\ view !! (u, t) = Some it.
Proof.
  unfold page_items. rewrite list_elem_of_fmap.
  intros (e & -> & Hin). apply first_page_subset in Hin.
  apply elem_of_partition_entries in Hin as (t & _ & Hlook). eauto.
Qed.

Lemma page_items_all (u : string) (view : Table) :
  (partition_size u view <= max_page_size)%N ->
  page_items u view = partition_items u view.
Proof.
  intros Hsize. unfold page_items, partition_items.
  rewrite first_page_all by exact Hsize. reflexivity.
Qed.

End Pages.

Section OnTheTableAgain.

Context `{Host} `{Service} (rt : runtime).

(** A create by owner [u] that passes the checks, with a key and an item
    within the limits: the item is written at ([u], uuid), replacing
    whatever was there, and returned with 201. *)
Lemma create_on_table (event : Event.t) (tbl : Table) (u ttl : string)
    (requestBody : jsval) :
  claimed_sub event = JStr u -> u <> "" ->
  fresh_uuid rt <> "" ->
  JSON_parse (Event.body event) = inr requestBody ->
  member requestBody "title" = JStr ttl -> trim ttl <> "" ->
  truthy (member requestBody "description")
  && negb (typeof (member requestBody "description") =? "string") = false ->
  key_fits u (fresh_uuid rt) ->
  let item :=
    new_item (JStr u) (fresh_uuid rt) (JStr ttl)
      (member requestBody "description") (instant rt) in
  (item_size item <= max_item_size)%N ->
  run dynamodb rt (createTodoHandler event) tbl
  = mkOutcome (inr (created item)) (<[(u, fresh_uuid rt) := item]> tbl)
      [PutCommand (put_params item)].
Proof.
  intros Hsub Hu Hid Hparse Htitle Htrim Hdesc Hfits item Hsize.
  assert (Hsub' : truthy (claimed_sub event) = true)
    by (rewrite Hsub; apply nonempty_truthy, Hu).
  pose proof (create_after_title event requestBody ttl Hsub' Hparse Htitle Htrim)
    as Hpath.
  rewrite Hdesc in Hpath. destruct Hpath as (k & Heq & Hk).
  pose proof (run_create_command dynamodb rt event tbl _ k Heq Hk) as Hrun.
  cbv zeta in Hrun. rewrite Hrun, Hsub. fold item.
  assert (Hkey : item_key (JObj item) = inr (u, fresh_uuid rt))
    by (apply key_of_fits; assumption).
  apply N.leb_le in Hsize.
  unfold dynamodb, ddb_put, put_params.
  change (member (JObj _) "Item") with (JObj item).
  rewrite Hkey, Hsize. reflexivity.
Qed.

(** The query of [getTodosHandler] on the table: one page of the
    partition, read from a replica. *)
Lemma query_on_table (u : string) (tbl : Table) :
  u <> "" -> (utf8_length u <= max_partition_key)%N ->
  ddb_query (query_params (JStr u)) tbl = (inr (query_output u (replica tbl)), tbl).
Proof.
  intros Hu Hfits. apply String.eqb_neq in Hu. apply N.leb_le in Hfits.
  transitivity (match partition_key u with
                | inl e => (inl e, tbl)
                | inr _ => (inr (query_output u (replica tbl)), tbl)
                end); [reflexivity |].
  unfold partition_key. rewrite Hu, Hfits. reflexivity.
Qed.

(** A list by owner [u]: one page of the partition of [u] as the replica
    has it, the table left as it was. *)
Lemma list_on_table (event : Event.t) (tbl : Table) (u : string) :
  claimed_sub event = JStr u -> u <> "" ->
  (utf8_length u <= max_partition_key)%N ->
  run dynamodb rt (getTodosHandler event) tbl
  = mkOutcome (inr (listed (JArr (page_items u (replica tbl))))) tbl
      [QueryCommand (query_params (JStr u))].
Proof.
  intros Hsub Hu Hfits.
  destruct (list_run_cases dynamodb rt event tbl) as [[Hf _] | [_ Hrun]].
  - rewrite Hsub, (nonempty_truthy u Hu) in Hf. discriminate.
  - rewrite Hrun, Hsub. unfold dynamodb.
    rewrite (query_on_table u tbl Hu Hfits). reflexivity.
Qed.

End OnTheTableAgain.

Section TableProperties.

Context `{Host} `{Service} (rt : runtime).

(** X7.  An update of an existing item with valid fields, at least one
    given, where the key and the item as patched are within the limits of
    the store: the answer is 200 with the item as stored afterwards; that
    item has the given fields, the new [updatedAt], and every other
    attribute ([createdAt], [userId], [todoId], ...) as before; no other
    item of the table changes. *)
Theorem update_patches_the_item (event : Event.t) (tbl : Table) (u t : string)
    (requestBody : jsval) (old : list (string * jsval)) :
  claimed_sub event = JStr u -> u <> "" ->
  member (Event.pathParameters event) "id" = JStr t -> t <> "" ->
  JSON_parse (Event.body event) = inr requestBody ->
  nullish requestBody = false ->
  title_ok (member requestBody "title") ->
  description_ok (member requestBody "description") ->
  status_ok (member requestBody "status") ->
  member requestBody "title" <> JUndefined
  \/ member requestBody "description" <> JUndefined
  \/ member requestBody "status" <> JUndefined ->
  tbl !! (u, t) = Some old ->
  key_fits u t ->
  (item_size
     (patched (member requestBody "title") (member requestBody "description")
        (member requestBody "status") (instant rt) old)
   <= max_item_size)%N ->
  let o := run dynamodb rt (updateTodoHandler event) tbl in
  exists written,
    result o = inr (updated (JObj written))
    /\ statusCode (updated (JObj written)) = 200%Z
    /\ body (updated (JObj written))
       = JSON_stringify
           (JObj [("message", JStr "To-Do item updated successfully.");
                  ("todo", JObj written)])
    /\ final o !! (u, t) = Some written
    /\ (forall k', k' <> (u, t) -> final o !! k' = tbl !! k')
    /\ assoc "updatedAt" written = JStr (instant rt)
    /\ assoc "title" written
       = (if is_undefined (member requestBody "title")
          then assoc "title" old else member requestBody "title")
    /\ assoc "description" written
       = (if is_undefined (member requestBody "description")
          then assoc "description" old else member requestBody "description")
    /\ assoc "status" written
       = (if is_undefined (member requestBody "status")
          then assoc "status" old else member requestBody "status")
    /\ (forall k, k <> "title" -> k <> "description" -> k <> "status" ->
                  k <> "updatedAt" -> assoc k written = assoc k old).
Proof.
  intros Hsub Hu Hid Ht Hparse Hbody Htitle Hdesc Hstatus Hgiven Hold
    Hfits Hsize o.
  pose proof (update_on_table rt event tbl u t requestBody
                Hsub Hu Hid Ht Hparse Hbody Htitle Hdesc Hstatus Hfits) as Hrun.
  cbv zeta in Hrun. rewrite Hold in Hrun. cbn [default from_option id] in Hrun.
  assert (Hsome : is_undefined (member requestBody "title")
                  && is_undefined (member requestBody "description")
                  && is_undefined (member requestBody "status") = false).
  { destruct (member requestBody "title"), (member requestBody "description"),
      (member requestBody "status"); try reflexivity.
    destruct Hgiven as [Hg | [Hg | Hg]]; congruence. }
  apply N.leb_le in Hsize. rewrite Hsome, Hsize in Hrun.
  subst o. rewrite Hrun. cbn [result final].
  eexists. split; [reflexivity |]. split; [reflexivity |].
  split; [reflexivity |].
  split; [apply lookup_insert_eq |].
  split; [intros k' Hk'; apply lookup_insert_ne; congruence |].
  rewrite !assoc_patched. simpl.
  repeat apply conj; try reflexivity.
  - destruct (is_undefined (member requestBody "status")),
      (is_undefined (member requestBody "description")),
      (is_undefined (member requestBody "title")); reflexivity.
  - destruct (is_undefined (member requestBody "status")),
      (is_undefined (member requestBody "description")); reflexivity.
  - destruct (is_undefined (member requestBody "status")); reflexivity.
  - intros k Hk1 Hk2 Hk3 Hk4. rewrite assoc_patched.
    apply String.eqb_neq in Hk1, Hk2, Hk3, Hk4.
    rewrite Hk1, Hk2, Hk3, Hk4. reflexivity.
Qed.

(** X8.  On the table, an update whose body gives none of the three
    fields is refused by the store (the attribute names it sends are
    empty): the handler answers 500 and the table is unchanged. *)
Theorem update_without_fields_on_table (event : Event.t) (tbl : Table)
    (u t : string) (requestBody : jsval) :
  claimed_sub event = JStr u -> u <> "" ->
  member (Event.pathParameters event) "id" = JStr t -> t <> "" ->
  JSON_parse (Event.body event) = inr requestBody ->
  nullish requestBody = false ->
  member requestBody "title" = JUndefined ->
  member requestBody "description" = JUndefined ->
  member requestBody "status" = JUndefined ->
  let o := run dynamodb rt (updateTodoHandler event) tbl in
  result o = inr update_failed
  /\ statusCode update_failed = 500%Z
  /\ final o = tbl
  /\ length (sent o) = 1%nat.
Proof.
  intros Hsub Hu Hid Ht Hparse Hbody Htitle Hdesc Hstatus o.
  assert (Hsub' : truthy (claimed_sub event) = true)
    by (rewrite Hsub; apply nonempty_truthy, Hu).
  assert (Hid' : truthy (member (Event.pathParameters event) "id") = true)
    by (rewrite Hid; apply nonempty_truthy, Ht).
  pose proof (update_after_parse event requestBody Hsub' Hid' Hparse Hbody) as Hv.
  unfold validated in Hv. rewrite Htitle, Hdesc, Hstatus in Hv. simpl in Hv.
  destruct Hv as (k & Heq & Hk).
  subst o. rewrite (run_update_command dynamodb rt event tbl _ k Heq Hk).
  repeat split.
Qed.

(** X9.  A create that passes the checks, with a key and an item within
    the limits of the store, writes exactly one item, at (owner, uuid):
    the answer is 201 with that item, the table holds it there, and no
    other key of the table changes. *)
Theorem create_writes_one_item (event : Event.t) (tbl : Table) (u ttl : string)
    (requestBody : jsval) :
  claimed_sub event = JStr u -> u <> "" ->
  fresh_uuid rt <> "" ->
  JSON_parse (Event.body event) = inr requestBody ->
  member requestBody "title" = JStr ttl -> trim ttl <> "" ->
  truthy (member requestBody "description")
  && negb (typeof (member requestBody "description") =? "string") = false ->
  key_fits u (fresh_uuid rt) ->
  (item_size
     (new_item (JStr u) (fresh_uuid rt) (JStr ttl)
        (member requestBody "description") (instant rt))
   <= max_item_size)%N ->
  let o := run dynamodb rt (createTodoHandler event) tbl in
  exists item,
    result o = inr (created item)
    /\ statusCode (created item) = 201%Z
    /\ body (created item)
       = JSON_stringify
           (JObj [("message", JStr "To-Do item created successfully.");
                  ("todo", JObj item)])
    /\ assoc "userId" item = JStr u
    /\ assoc "todoId" item = JStr (fresh_uuid rt)
    /\ final o !! (u, fresh_uuid rt) = Some item
    /\ (forall k', k' <> (u, fresh_uuid rt) -> final o !! k' = tbl !! k').
Proof.
  intros Hsub Hu Hid Hparse Htitle Htrim Hdesc Hfits Hsize o.
  pose proof (create_on_table rt event tbl u ttl requestBody
                Hsub Hu Hid Hparse Htitle Htrim Hdesc Hfits Hsize) as Hrun.
  subst o. rewrite Hrun. simpl.
  eexists. split; [reflexivity |]. split; [reflexivity |].
  split; [reflexivity |]. split; [reflexivity |]. split; [reflexivity |].
  split; [apply lookup_insert_eq |].
  intros k' Hk'. apply lookup_insert_ne. congruence.
Qed.

(** X10.  A list by owner [u] leaves the table as it was and is answered
    with 200 and one page of the partition of [u] as the replica that
    serves the read has it: every item listed is stored there under a
    key of [u].  When the replica is level with the table and the
    partition is within 1 MB, the items listed are exactly the items of
    [u]; the handler asks for no further page. *)
Theorem list_returns_the_partition (event : Event.t) (tbl : Table) (u : string) :
  claimed_sub event = JStr u -> u <> "" ->
  (utf8_length u <= max_partition_key)%N ->
  let o := run dynamodb rt (getTodosHandler event) tbl in
  exists todos,
    result o = inr (listed (JArr todos))
    /\ statusCode (listed (JArr todos)) = 200%Z
    /\ body (listed (JArr todos)) = JSON_stringify (JObj [("todos", JArr todos)])
    /\ final o = tbl
    /\ sent o = [QueryCommand (query_params (JStr u))]
    /\ todos = page_items u (replica tbl)
    /\ (forall v, v ∈ todos ->
                  exists t it, v = JObj it /\ replica tbl !! (u, t) = Some it)
    /\ (replica tbl = tbl ->
        (partition_size u tbl <= max_page_size)%N ->
        forall v, v ∈ todos
                  <-> exists t it, v = JObj it /\ tbl !! (u, t) = Some it)
    /\ ((forall t, replica tbl !! (u, t) = None) -> todos = []).
Proof.
  intros Hsub Hu Hfits o. subst o.
  rewrite (list_on_table rt event tbl u Hsub Hu Hfits).
  simpl. eexists. split; [reflexivity |]. split; [reflexivity |].
  split; [reflexivity |].
  split; [reflexivity |]. split; [reflexivity |]. split; [reflexivity |].
  split; [apply elem_of_page_items |]. split.
  - intros Hlevel Hsize v. rewrite Hlevel, (page_items_all u tbl Hsize).
    apply elem_of_partition_items.
  - intros Hnone. apply elem_of_nil_inv. intros v Hv.
    apply elem_of_page_items in Hv as (t & it & _ & Hlook).
    rewrite Hnone in Hlook. discriminate.
Qed.

(** X11.  Deleting an existing item (its key within the limits of the
    store): the answer is 200, the table no longer has an item at
    (owner, id), and no other key changes. *)
Theorem delete_removes_exactly (event : Event.t) (tbl : Table) (u t : string)
    (old : list (string * jsval)) :
  claimed_sub event = JStr u -> u <> "" ->
  member (Event.pathParameters event) "id" = JStr t -> t <> "" ->
  tbl !! (u, t) = Some old ->
  key_fits u t ->
  let o := run dynamodb rt (deleteTodoHandler event) tbl in
  result o = inr deleted
  /\ statusCode deleted = 200%Z
  /\ final o !! (u, t) = None
  /\ (forall k', k' <> (u, t) -> final o !! k' = tbl !! k').
Proof.
  intros Hsub Hu Hid Ht Hold Hfits o. subst o.
  rewrite (delete_on_table rt event tbl u t Hsub Hu Hid Ht Hfits), Hold. simpl.
  split; [reflexivity |]. split; [reflexivity |].
  split; [apply lookup_delete_eq |].
  intros k' Hk'. apply lookup_delete_ne. congruence.
Qed.

End TableProperties.

(** ** One request after another *)

Section Sequences.

Context `{Host} `{Service} (rt1 rt2 : runtime).


(** X13.  Create, then delete the created id by the same owner, the key
    and the item being within the limits of the store: the delete is
    answered with 200 and, the uuid being new to the table, the table is
    again what it was before the create. *)
Theorem create_then_delete_restores (create_event delete_event : Event.t)
    (tbl : Table) (u ttl : string) (requestBody : jsval) :
  claimed_sub create_event = JStr u -> u <> "" ->
  fresh_uuid rt1 <> "" ->
  JSON_parse (Event.body create_event) = inr requestBody ->
  member requestBody "title" = JStr ttl -> trim ttl <> "" ->
  truthy (member requestBody "description")
  && negb (typeof (member requestBody "description") =? "string") = false ->
  key_fits u (fresh_uuid rt1) ->
  (item_size
     (new_item (JStr u) (fresh_uuid rt1) (JStr ttl)
        (member requestBody "description") (instant rt1))
   <= max_item_size)%N ->
  tbl !! (u, fresh_uuid rt1) = None ->
  claimed_sub delete_event = JStr u ->
  member (Event.pathParameters delete_event) "id" = JStr (fresh_uuid rt1) ->
  let first := run dynamodb rt1 (createTodoHandler create_event) tbl in
  let second := run dynamodb rt2 (deleteTodoHandler delete_event) (final first) in
  (exists item, result first = inr (created item))
  /\ result second = inr deleted /\ final second = tbl.
Proof.
  intros Hsub Hu Hid Hparse Htitle Htrim Hdesc Hfits Hsize Hnew Hsub2 Hid2
    first second.
  pose proof (create_on_table rt1 create_event tbl u ttl requestBody
                Hsub Hu Hid Hparse Htitle Htrim Hdesc Hfits Hsize) as Hrun.
  subst second first. rewrite Hrun. cbn [final result].
  split; [eexists; reflexivity |].
  rewrite (delete_on_table rt2 delete_event _ u (fresh_uuid rt1)
             Hsub2 Hu Hid2 Hid Hfits).
  rewrite lookup_insert_eq. cbn [result final].
  split; [reflexivity |]. apply delete_insert_id, Hnew.
Qed.


End Sequences.

(** ** Items keep their key *)

Lemma resolve_actions_spare_the_key (names values : jsval)
    (cs : list (string * string)) (acts : list (string * jsval)) :
  resolve_actions names values cs = inr acts ->
  Forall (fun av => is_key_attribute (fst av) = false) acts.
Proof.
  revert acts. induction cs as [| [p v] cs IH]; simpl; intros acts Hr.
  - injection Hr as <-. constructor.
  - destruct (resolve_name names p) as [e | a]; [discriminate |].
    destruct (is_key_attribute a) eqn:Hkey; [discriminate |].
    destruct (resolve_value values v) as [e | x]; [discriminate |].
    destruct (resolve_actions names values cs) as [e | acts']; [discriminate |].
    injection Hr as <-. constructor; [exact Hkey | apply IH; reflexivity].
Qed.

Lemma apply_actions_spare_the_key (k : string) (acts : list (string * jsval))
    (it : list (string * jsval)) :
  is_key_attribute k = true ->
  Forall (fun av => is_key_attribute (fst av) = false) acts ->
  assoc k (apply_actions acts it) = assoc k it.
Proof.
  intros Hk Hacts. revert it.
  induction Hacts as [| [a x] acts Ha _ IH]; intros it; [reflexivity |].
  unfold apply_actions in *. simpl. rewrite IH, assoc_set_prop.
  destruct (String.eqb_spec k a) as [-> | _]; [| reflexivity].
  simpl in Ha. congruence.
Qed.

Lemma well_keyed_insert (tbl : Table) (u t : string) (it : list (string * jsval)) :
  well_keyed tbl ->
  assoc "userId" it = JStr u -> assoc "todoId" it = JStr t ->
  well_keyed (<[(u, t) := it]> tbl).
Proof.
  intros Hwk Hu Ht u' t' it' Hlook.
  destruct (decide ((u, t) = (u', t'))) as [[= <- <-] | Hne].
  - rewrite lookup_insert_eq in Hlook. injection Hlook as <-. auto.
  - rewrite lookup_insert_ne in Hlook by exact Hne. eapply Hwk, Hlook.
Qed.

Section KeptByTheStore.

Context `{Service}.

Lemma key_of_inr (u t : string) (k : string * string) :
  key_of u t = inr k -> k = (u, t).
Proof.
  unfold key_of. destruct (partition_key u); [discriminate |].
  destruct (t =? ""); [discriminate |].
  destruct (negb _); [discriminate |]. congruence.
Qed.

Lemma item_key_inr (fs : list (string * jsval)) (u t : string) :
  item_key (JObj fs) = inr (u, t) ->
  assoc "userId" fs = JStr u /\ assoc "todoId" fs = JStr t.
Proof.
  unfold item_key.
  destruct (assoc "userId" fs) as [| | | | u' | | |];
    destruct (assoc "todoId" fs) as [| | | | t' | | |]; try discriminate.
  intros Hkey. apply key_of_inr in Hkey as [= -> ->]. split; reflexivity.
Qed.

(** Every command leaves the items of the table under their own key. *)
Lemma dynamodb_keeps_items_keyed (c : command) (tbl : Table) :
  well_keyed tbl -> well_keyed (snd (dynamodb c tbl)).
Proof.
  intros Hwk. destruct c as [params | params | params | params]; simpl.
  - unfold ddb_put.
    destruct (item_key (member params "Item")) as [e | [u t]] eqn:Hkey;
      [exact Hwk |].
    destruct (member params "Item") as [| | | | | | fs |]; try exact Hwk.
    destruct (item_size fs <=? max_item_size)%N; [| exact Hwk].
    simpl. apply item_key_inr in Hkey as [Hu Ht].
    apply well_keyed_insert; assumption.
  - unfold ddb_update.
    destruct (empty_object _); [exact Hwk |].
    destruct (empty_object _); [exact Hwk |].
    destruct (parse_update _) as [cs |]; [| exact Hwk].
    destruct (resolve_actions _ _ cs) as [e | acts] eqn:Hacts; [exact Hwk |].
    destruct (primary_key _) as [e | [u t]]; [exact Hwk |].
    cbv zeta. destruct (item_size _ <=? max_item_size)%N; [| exact Hwk].
    simpl. apply resolve_actions_spare_the_key in Hacts.
    apply well_keyed_insert; [exact Hwk | |];
      (rewrite apply_actions_spare_the_key by (reflexivity || exact Hacts));
      destruct (tbl !! (u, t)) as [it |] eqn:Hlook; simpl;
      try reflexivity; apply (Hwk u t it Hlook).
  - unfold ddb_delete.
    destruct (primary_key _) as [e | k]; [exact Hwk |].
    simpl. intros u t it Hlook.
    apply lookup_delete_Some in Hlook as [_ Hlook]. eapply Hwk, Hlook.
  - unfold ddb_query.
    repeat match goal with
           | |- context [match ?x with _ => _ end] => destruct x
           end; exact Hwk.
Qed.

End KeptByTheStore.

(** What every command of a store keeps, a whole invocation keeps. *)
Lemma run_keeps {A S : Type} (send : store_step S) (rt : runtime)
    (P : S -> Prop) (p : prog A) (s : S) :
  (forall c s, P s -> P (snd (send c s))) ->
  P s -> P (final (run send rt p s)).
Proof.
  intros Hsend. revert s.
  induction p as [a | e | k IH | k IH | c k IH]; intros s Hs; simpl; auto.
  specialize (Hsend c s Hs). destruct (send c s) as [r s']. simpl in *.
  apply IH, Hsend.
Qed.

Section Keyed.

Context `{Host} `{Service} (rt : runtime).

(** X15.  On a table whose items carry their own key, each handler
    leaves such a table, whatever the event; and every item a list
    returns to owner [u] (a partition key within the limit of the store)
    has [u] as its [userId]. *)
Theorem items_stay_with_their_owner (event : Event.t) (tbl : Table) :
  well_keyed tbl ->
  well_keyed (final (run dynamodb rt (createTodoHandler event) tbl))
  /\ well_keyed (final (run dynamodb rt (updateTodoHandler event) tbl))
  /\ well_keyed (final (run dynamodb rt (deleteTodoHandler event) tbl))
  /\ well_keyed (final (run dynamodb rt (getTodosHandler event) tbl))
  /\ (forall u v,
        claimed_sub event = JStr u -> u <> "" ->
        (utf8_length u <= max_partition_key)%N ->
        exists todos,
          result (run dynamodb rt (getTodosHandler event) tbl)
          = inr (listed (JArr todos))
          /\ (v ∈ todos -> member v "userId" = JStr u)).
Proof.
  intros Hwk.
  repeat (split; [apply run_keeps;
                  [intros c s; apply dynamodb_keeps_items_keyed | exact Hwk] |]).
  intros u v Hsub Hu Hfits. rewrite (list_on_table rt event tbl u Hsub Hu Hfits).
  eexists. split; [reflexivity |].
  intros Hv. apply elem_of_page_items in Hv as (t & it & -> & Hlook).
  simpl. apply (replica_keyed tbl Hwk u t it Hlook).
Qed.

End Keyed.

(** ** Setting up the table *)

Section SetupProperties.

Context `{Host}.

(** X16.  With the table name configured, and an account that refuses
    only a name in use and a name that is not there, [createTodosTable]
    does not reject: it creates the table empty, or, when the name is in
    use, leaves the table and its items as they are, so a second call
    changes nothing; [deleteTodosTable] does not reject either, and a
    create after it yields an empty table. *)
Theorem setup_is_idempotent (n : string) (acc : Account) :
  TODOS_TABLE_NAME = JStr n ->
  let created := run_admin account_step createTodosTable acc in
  let dropped := run_admin account_step deleteTodosTable acc in
  fst created = inr tt
  /\ snd created !! n = Some (default ∅ (acc !! n))
  /\ (forall n', n' <> n -> snd created !! n' = acc !! n')
  /\ run_admin account_step createTodosTable (snd created) = (inr tt, snd created)
  /\ fst dropped = inr tt
  /\ snd dropped = delete n acc
  /\ snd (run_admin account_step createTodosTable (snd dropped)) !! n = Some ∅.
Proof.
  intros Hname.
  assert (Hcreate : forall acc' : Account,
             run_admin account_step createTodosTable acc'
             = (inr tt, match acc' !! n with
                        | Some _ => acc'
                        | None => <[n := ∅]> acc'
                        end)).
  { intros acc'. unfold createTodosTable. simpl. rewrite Hname.
    destruct (acc' !! n); reflexivity. }
  assert (Hdrop : run_admin account_step deleteTodosTable acc
                  = (inr tt, delete n acc)).
  { unfold deleteTodosTable. simpl. rewrite Hname.
    destruct (acc !! n) eqn:Hn; simpl; [reflexivity |].
    rewrite (delete_id acc n Hn). reflexivity. }
  cbv zeta. rewrite Hdrop, !Hcreate. simpl. rewrite lookup_delete_eq.
  destruct (acc !! n) as [tbl |] eqn:Hn; simpl; rewrite ?Hn, ?lookup_insert_eq;
    repeat split; auto using lookup_insert_eq.
  intros n' Hn'. apply lookup_insert_ne. congruence.
Qed.

End SetupProperties.

(** ** The browser side *)

Lemma trim_end_idem (s : string) : trim_end (trim_end s) = trim_end s.
Proof.
  induction s as [| c r IH]; simpl; [reflexivity |].
  destruct (is_space c && (trim_end r =? "")) eqn:Hc; [reflexivity |].
  simpl. rewrite IH, Hc. reflexivity.
Qed.

Lemma trim_start_head (s : string) :
  trim_start s = ""
  \/ exists c r, trim_start s = String c r /\ is_space c = false.
Proof.
  induction s as [| c r IH]; simpl; [left; reflexivity |].
  destruct (is_space c) eqn:Hc; [exact IH |].
  right. exists c, r. split; [reflexivity | exact Hc].
Qed.

(** Trimming twice is trimming once. *)
Lemma trim_idem (s : string) : trim (trim s) = trim s.
Proof.
  unfold trim at 1.
  assert (Hstart : trim_start (trim s) = trim s).
  { unfold trim. destruct (trim_start_head s) as [-> | (c & r & -> & Hc)];
      [reflexivity |].
    simpl. rewrite Hc. simpl. rewrite Hc. reflexivity. }
  rewrite Hstart. unfold trim. apply trim_end_idem.
Qed.

Section Browser.

Variables (token : Error + string) (api : api_method -> jsval -> Error + jsval).

(** X17.  [createTodo]: a title that is blank after trimming is refused
    on the page, with no request at all; otherwise one POST carries the
    trimmed title and description, and the inputs are cleared and the
    list refreshed only when the token and the request both succeeded. *)
Theorem createTodo_outcomes (els : elements) :
  let title := trim (newTodoTitleInput_value els) in
  let description := trim (newTodoDescriptionInput_value els) in
  let o := run_ui token api (createTodo els) in
  (title = "" ->
   o = mkUiOutcome
         (inr (mkElements (newTodoTitleInput_value els)
                 (newTodoDescriptionInput_value els)
                 "To-Do title cannot be empty." red))
         [] 0)
  /\ (title <> "" ->
      match token with
      | inl e =>
          o = mkUiOutcome
                (inr (mkElements (newTodoTitleInput_value els)
                        (newTodoDescriptionInput_value els)
                        ("Failed to create To-Do: " +:+ message_or_unknown e)
                        red))
                [] 0
      | inr idToken =>
          let input := create_call title description idToken in
          match api POST input with
          | inl e =>
              o = mkUiOutcome
                    (inr (mkElements (newTodoTitleInput_value els)
                            (newTodoDescriptionInput_value els)
                            ("Failed to create To-Do: " +:+ message_or_unknown e)
                            red))
                    [(POST, input)] 0
          | inr _ =>
              o = mkUiOutcome
                    (inr (mkElements "" "" "" (todoMessage_className els)))
                    [(POST, input)] 1
          end
      end).
Proof.
  cbv zeta. unfold createTodo. split; intros Htitle.
  - rewrite Htitle. reflexivity.
  - apply String.eqb_neq in Htitle. simpl. rewrite Htitle. simpl.
    destruct token as [e | idToken]; simpl; [reflexivity |].
    unfold create_call. destruct (api POST _) as [e | data]; reflexivity.
Qed.

End Browser.

Section BrowserRequests.

Variables (token : Error + string) (api : api_method -> jsval -> Error + jsval).

Lemma createTodo_calls (els : elements) (m : api_method) (input : jsval) :
  In (m, input) (ui_calls (run_ui token api (createTodo els))) ->
  trim (newTodoTitleInput_value els) <> ""
  /\ exists idToken,
       m = POST
       /\ input = create_call (trim (newTodoTitleInput_value els))
                    (trim (newTodoDescriptionInput_value els)) idToken.
Proof.
  unfold createTodo. cbv zeta.
  destruct (String.eqb_spec (trim (newTodoTitleInput_value els)) "")
    as [Hblank | Hne].
  - rewrite Hblank. simpl. tauto.
  - pose proof Hne as Hneb. apply String.eqb_neq in Hneb. simpl. rewrite Hneb.
    simpl. destruct token as [e | idToken]; simpl; [tauto |].
    destruct (api POST _) as [e | data]; simpl;
      (intros [[= <- <-] | []]; split; [exact Hne |]; eexists;
       split; reflexivity).
Qed.

Lemma updateTodoStatus_run (todoId : string) (currentStatus : jsval)
    (els : elements) :
  run_ui token api (updateTodoStatus todoId currentStatus els)
  = one_request token api PUT (status_call todoId (toggled currentStatus))
      "Failed to update To-Do status: " els els.
Proof.
  unfold updateTodoStatus, one_request, status_call, toggled. simpl.
  destruct token as [e | idToken]; simpl; [reflexivity |].
  destruct (api PUT _) as [e | data]; reflexivity.
Qed.

Lemma deleteTodo_run (todoId : string) (els : elements) :
  run_ui token api (deleteTodo todoId els)
  = one_request token api DEL (delete_call todoId)
      "Failed to delete To-Do: " els els.
Proof.
  unfold deleteTodo, one_request, delete_call. simpl.
  destruct token as [e | idToken]; simpl; [reflexivity |].
  destruct (api DEL _) as [e | data]; reflexivity.
Qed.

Lemma one_request_calls (m m' : api_method) (input : string -> jsval)
    (what : string) (els done : elements) (sent_input : jsval) :
  In (m', sent_input) (ui_calls (one_request token api m input what els done)) ->
  m' = m /\ exists idToken, sent_input = input idToken.
Proof.
  unfold one_request. destruct token as [e | idToken]; simpl; [tauto |].
  destruct (api m _); simpl; intros [[= <- <-] | []]; eauto.
Qed.

End BrowserRequests.

Section BrowserToBackend.

Context `{Host} {S : Type} (send : store_step S) (rt : runtime).

Variables (token : Error + string) (api : api_method -> jsval -> Error + jsval).

(** X18.  What [createTodo] sends passes the checks of
    [createTodoHandler]: for a request with an owner whose body parses to
    the body sent, the handler goes on to write an item with the trimmed
    title and description, and answers 201 when the write is accepted. *)
Theorem created_body_passes_the_checks (els : elements) (m : api_method)
    (input : jsval) (event : Event.t) (s : S) :
  In (m, input) (ui_calls (run_ui token api (createTodo els))) ->
  truthy (claimed_sub event) = true ->
  JSON_parse (Event.body event) = inr (sent_body input) ->
  m = POST
  /\ exists item,
       let c := PutCommand (put_params item) in
       sent (run send rt (createTodoHandler event) s) = [c]
       /\ assoc "title" item = JStr (trim (newTodoTitleInput_value els))
       /\ assoc "description" item
          = JStr (trim (newTodoDescriptionInput_value els))
       /\ (forall data s', send c s = (inr data, s') ->
           result (run send rt (createTodoHandler event) s)
           = inr (created item)).
Proof.
  intros Hcall Hsub Hparse.
  apply createTodo_calls in Hcall as (Htitle & idToken & -> & ->).
  split; [reflexivity |].
  change (sent_body (create_call _ _ idToken))
    with (JObj [("title", JStr (trim (newTodoTitleInput_value els)));
                ("description", JStr (trim (newTodoDescriptionInput_value els)))])
    in Hparse.
  rewrite <- trim_idem in Htitle.
  pose proof (create_after_title event _ _ Hsub Hparse eq_refl Htitle) as Hpath.
  simpl in Hpath. rewrite andb_false_r in Hpath.
  destruct Hpath as (k & Heq & Hk).
  pose proof (run_create_command send rt event s _ k Heq Hk) as Hrun.
  cbv zeta in Hrun. rewrite Hrun.
  eexists. cbv zeta. split; [reflexivity |].
  split; [reflexivity |]. split.
  - simpl. unfold js_or. simpl.
    destruct (String.eqb_spec (trim (newTodoDescriptionInput_value els)) "")
      as [-> | _]; reflexivity.
  - intros data s' Hsend. simpl. rewrite Hsend. reflexivity.
Qed.

(** X19.  What [updateTodoStatus] sends is a PUT on the path of the id
    with a body that holds a status and nothing else; the status is the
    other one of pending and completed (pending when the current status
    is neither), so [updateTodoHandler] never answers it with a
    validation 400: for a request with owner and id whose body parses to
    the body sent, the handler sends an update that assigns [status]
    alone. *)
Theorem toggled_status_passes_the_checks (todoId : string) (currentStatus : jsval)
    (els : elements) (m : api_method) (input : jsval) (event : Event.t) (s : S) :
  In (m, input)
     (ui_calls (run_ui token api (updateTodoStatus todoId currentStatus els))) ->
  truthy (claimed_sub event) = true ->
  truthy (member (Event.pathParameters event) "id") = true ->
  JSON_parse (Event.body event) = inr (sent_body input) ->
  m = PUT
  /\ member input "path" = JStr ("/todos/" +:+ todoId)
  /\ sent_body input = JObj [("status", JStr (toggled currentStatus))]
  /\ (currentStatus = JStr "pending" -> toggled currentStatus = "completed")
  /\ (currentStatus <> JStr "pending" -> toggled currentStatus = "pending")
  /\ exists c,
       sent (run send rt (updateTodoHandler event) s) = [c]
       /\ named_attributes c = [JStr "status"].
Proof.
  intros Hcall Hsub Hid Hparse.
  rewrite updateTodoStatus_run in Hcall.
  apply one_request_calls in Hcall as (-> & idToken & ->).
  split; [reflexivity |]. split; [reflexivity |]. split; [reflexivity |].
  assert (Hcases : (currentStatus = JStr "pending"
                    /\ toggled currentStatus = "completed")
                   \/ (currentStatus <> JStr "pending"
                       /\ toggled currentStatus = "pending")).
  { destruct currentStatus as [| | x | f | st | xs | fs | fn];
      try (right; split; [discriminate | reflexivity]).
    destruct (String.eqb_spec st "pending") as [-> | Hne].
    - left. split; reflexivity.
    - right. split; [congruence |].
      unfold toggled.
      repeat match goal with
             | |- context [match ?x with _ => _ end] => destruct x
             end; try reflexivity; congruence. }
  split; [intros Hp; destruct Hcases as [[_ Ht] | [Hn _]]; congruence |].
  split; [intros Hp; destruct Hcases as [[Hn _] | [_ Ht]]; congruence |].
  change (sent_body (status_call todoId (toggled currentStatus) idToken))
    with (JObj [("status", JStr (toggled currentStatus))]) in Hparse.
  pose proof (update_after_parse event _ Hsub Hid Hparse eq_refl) as Hv.
  assert (Hval : validated (JObj [("status", JStr (toggled currentStatus))])
                 = inr (collected JUndefined JUndefined
                          (JStr (toggled currentStatus)))).
  { apply (validated_ok (JObj [("status", JStr (toggled currentStatus))]));
      [left; reflexivity | left; reflexivity |].
    simpl. destruct Hcases as [[_ ->] | [_ ->]]; unfold status_ok; auto. }
  rewrite Hval in Hv. destruct Hv as (k & Heq & Hk).
  rewrite (run_update_command send rt event s _ k Heq Hk).
  eexists. split; reflexivity.
Qed.

End BrowserToBackend.

Section BrowserOnTheTable.

Context `{Host} `{Service} (rt : runtime).

Variables (token : Error + string) (api : api_method -> jsval -> Error + jsval).

(** X20.  From the button to the table: when [updateTodoStatus] is
    called with the status the item has, and the request reaches
    [updateTodoHandler] for the owner of the item, the stored item gets
    the other status and the new [updatedAt], and keeps every other
    attribute, provided the key and the item with its new status and
    timestamp are within the limits of the store. *)
Theorem toggle_flips_the_stored_status (tbl : Table) (u t st : string)
    (old : list (string * jsval)) (els : elements)
    (m : api_method) (input : jsval) (event : Event.t) :
  tbl !! (u, t) = Some old ->
  assoc "status" old = JStr st ->
  st = "pending" \/ st = "completed" ->
  In (m, input) (ui_calls (run_ui token api (updateTodoStatus t (JStr st) els))) ->
  claimed_sub event = JStr u -> u <> "" ->
  member (Event.pathParameters event) "id" = JStr t -> t <> "" ->
  JSON_parse (Event.body event) = inr (sent_body input) ->
  key_fits u t ->
  (item_size
     (patched JUndefined JUndefined (JStr (toggled (JStr st))) (instant rt) old)
   <= max_item_size)%N ->
  let o := run dynamodb rt (updateTodoHandler event) tbl in
  exists item',
    result o = inr (updated (JObj item'))
    /\ final o !! (u, t) = Some item'
    /\ assoc "status" item'
       = JStr (if st =? "pending" then "completed" else "pending")
    /\ assoc "status" item' <> assoc "status" old
    /\ assoc "updatedAt" item' = JStr (instant rt)
    /\ (forall k, k <> "status" -> k <> "updatedAt" ->
                  assoc k item' = assoc k old).
Proof.
  intros Hold Hstatus Hst Hcall Hsub Hu Hid Ht Hparse Hfits Hsize o.
  rewrite updateTodoStatus_run in Hcall.
  apply one_request_calls in Hcall as (-> & idToken & ->).
  change (sent_body (status_call t (toggled (JStr st)) idToken))
    with (JObj [("status", JStr (toggled (JStr st)))]) in Hparse.
  assert (Htoggled : toggled (JStr st)
                     = if st =? "pending" then "completed" else "pending")
    by (destruct Hst as [-> | ->]; reflexivity).
  pose proof (update_on_table rt event tbl u t _ Hsub Hu Hid Ht Hparse eq_refl)
    as Hrun.
  assert (Hok : status_ok (JStr (toggled (JStr st))))
    by (rewrite Htoggled; destruct Hst as [-> | ->]; unfold status_ok; auto).
  specialize (Hrun (or_introl eq_refl) (or_introl eq_refl) Hok Hfits).
  cbv zeta in Hrun. cbn [member assoc String.eqb Ascii.eqb Bool.eqb] in Hrun.
  cbn [is_undefined andb] in Hrun. rewrite Hold in Hrun.
  cbn [default from_option id] in Hrun.
  apply N.leb_le in Hsize. rewrite Hsize in Hrun.
  subst o. rewrite Hrun. cbn [result final].
  eexists. split; [reflexivity |]. split; [apply lookup_insert_eq |].
  repeat apply conj.
  - rewrite assoc_patched, Htoggled. reflexivity.
  - rewrite assoc_patched, Htoggled, Hstatus.
    destruct Hst as [-> | ->]; simpl; discriminate.
  - rewrite assoc_patched. reflexivity.
  - intros k Hk1 Hk2. rewrite assoc_patched.
    apply String.eqb_neq in Hk1, Hk2. rewrite Hk1, Hk2. simpl.
    rewrite !andb_false_r. reflexivity.
Qed.

End BrowserOnTheTable.

Section BrowserOutcomes.

Variables (token : Error + string) (api : api_method -> jsval -> Error + jsval).

(** X21.  [updateTodoStatus] and [deleteTodo] never let an error escape
    and make at most one request, a PUT and a DELETE on the path of the
    id.  Without a token they make none; when the token or the request
    fails they refresh nothing and show the failure, with 'Unknown error'
    in place of an empty message; when both succeed, and only then, they
    leave the page elements as they were and refresh the list once. *)
Theorem mutations_refresh_only_on_success (todoId : string) (currentStatus : jsval)
    (els : elements) :
  let toggle := run_ui token api (updateTodoStatus todoId currentStatus els) in
  let removal := run_ui token api (deleteTodo todoId els) in
  let shown (what : string) (e : Error) :=
    mkElements (newTodoTitleInput_value els) (newTodoDescriptionInput_value els)
      (what +:+ (if message e =? "" then "Unknown error" else message e)) red in
  match token with
  | inl e =>
      toggle
      = mkUiOutcome (inr (shown "Failed to update To-Do status: " e)) [] 0
      /\ removal = mkUiOutcome (inr (shown "Failed to delete To-Do: " e)) [] 0
  | inr idToken =>
      let put := status_call todoId (toggled currentStatus) idToken in
      let del := delete_call todoId idToken in
      member put "path" = JStr ("/todos/" +:+ todoId)
      /\ member del "path" = JStr ("/todos/" +:+ todoId)
      /\ match api PUT put with
         | inl e =>
             toggle
             = mkUiOutcome (inr (shown "Failed to update To-Do status: " e))
                 [(PUT, put)] 0
         | inr _ => toggle = mkUiOutcome (inr els) [(PUT, put)] 1
         end
      /\ match api DEL del with
         | inl e =>
             removal
             = mkUiOutcome (inr (shown "Failed to delete To-Do: " e))
                 [(DEL, del)] 0
         | inr _ => removal = mkUiOutcome (inr els) [(DEL, del)] 1
         end
  end.
Proof.
  cbv zeta. rewrite updateTodoStatus_run, deleteTodo_run. unfold one_request.
  destruct token as [e | idToken]; [split; reflexivity |].
  split; [reflexivity |]. split; [reflexivity |].
  split; [destruct (api PUT _) | destruct (api DEL _)]; reflexivity.
Qed.

End BrowserOutcomes.

(** * More examples *)

Section MoreExamples.

#[local] Existing Instance example_host.
#[local] Existing Instance example_service.

Lemma ownership_example :
  let event := request (JStr "U1") todo_X (body_of buy_milk) in
  exists params,
    retitle_command = UpdateCommand (JObj params)
    /\ assoc "Key" params = JObj [("userId", JStr "U1"); ("todoId", JStr "X")].
Proof.
  intros event.
  destruct (commands_address_the_claimed_owner (H := example_host)
              dynamodb example_runtime event table_of_U1 retitle_command
              (JStr "U1") eq_refl)
    as (_ & _ & Hupdate & _).
  destruct (Hupdate ltac:(left; reflexivity)) as (params & Hc & _ & Hkey & _).
  exists params. split; [exact Hc | exact Hkey].
Defined.

Lemma update_names_example :
  In (JStr "title") [JStr "title"; JStr "description"; JStr "status"].
Proof.
  apply (update_names_only_its_fields (H := example_host)
           dynamodb example_runtime
           (request (JStr "U1") todo_X (body_of buy_milk)) table_of_U1
           retitle_command (JStr "title")).
  - left. reflexivity.
  - left. reflexivity.
Defined.

Lemma store_failure_example :
  let event := request (JStr "U1") JNull (body_of buy_milk) in
  result (run (rejecting key_mismatch) example_runtime (createTodoHandler event) tt)
  = inr create_failed.
Proof.
  intros event.
  destruct (store_failure_is_500 (H := example_host)
              (rejecting key_mismatch) example_runtime
              createTodoHandler create_failed event tt tt
              (PutCommand
                 (put_params
                    (new_item (JStr "U1") (fresh_uuid example_runtime)
                       (JStr "Buy milk") JUndefined (instant example_runtime))))
              [] key_mismatch
              ltac:(left; reflexivity) eq_refl eq_refl) as [Hrun _].
  rewrite Hrun. reflexivity.
Defined.


Lemma update_invalid_field_example :
  let event :=
    request (JStr "U1") todo_X
      (body_of (JObj [("title", JStr "Buy milk"); ("description", JBool true)])) in
  exists b,
    run dynamodb example_runtime (updateTodoHandler event) table_of_U1
    = mkOutcome (inr (generateResponse 400 b)) table_of_U1 [].
Proof.
  intros event.
  apply (update_invalid_field_is_400 (H := example_host)
           dynamodb example_runtime event table_of_U1
           (JObj [("title", JStr "Buy milk"); ("description", JBool true)])
           eq_refl eq_refl eq_refl eq_refl).
  right; left. intros [Hd | (x & Hd)]; discriminate Hd.
Defined.

Lemma update_patches_example :
  let event := request (JStr "U1") todo_X (body_of complete_it) in
  exists written,
    final (run dynamodb example_runtime (updateTodoHandler event) table_of_U1)
    !! ("U1", "X") = Some written
    /\ assoc "status" written = JStr "completed"
    /\ assoc "createdAt" written = JStr "2024-04-30T08:00:00.000Z".
Proof.
  intros event.
  destruct (update_patches_the_item (H := example_host) (H0 := example_service)
              example_runtime
              event table_of_U1 "U1" "X" complete_it milk_item
              eq_refl ltac:(discriminate) eq_refl ltac:(discriminate)
              eq_refl eq_refl
              ltac:(left; reflexivity) ltac:(left; reflexivity)
              ltac:(right; right; reflexivity)
              ltac:(right; right; discriminate) eq_refl
              ltac:(split; vm_compute; discriminate)
              ltac:(vm_compute; discriminate))
    as (written & _ & _ & _ & Hlook & _ & _ & _ & _ & Hstatus & Hrest).
  exists written. split; [exact Hlook |]. split; [exact Hstatus |].
  rewrite Hrest by discriminate. reflexivity.
Defined.

Lemma update_without_fields_example :
  let event :=
    request (JStr "U1") todo_X (body_of (JObj [("priority", JStr "high")])) in
  let o := run dynamodb example_runtime (updateTodoHandler event) table_of_U1 in
  result o = inr update_failed /\ final o = table_of_U1.
Proof.
  intros event o.
  destruct (update_without_fields_on_table (H := example_host)
              (H0 := example_service) example_runtime
              event table_of_U1 "U1" "X" (JObj [("priority", JStr "high")])
              eq_refl ltac:(discriminate) eq_refl ltac:(discriminate)
              eq_refl eq_refl eq_refl eq_refl eq_refl)
    as (Hres & _ & Hfinal & _).
  split; [exact Hres | exact Hfinal].
Defined.

Lemma create_writes_example :
  let event := request (JStr "U1") JNull (body_of buy_milk) in
  let o := run dynamodb example_runtime (createTodoHandler event) table_of_U1 in
  exists item,
    final o !! ("U1", fresh_uuid example_runtime) = Some item
    /\ final o !! ("U1", "X") = Some milk_item.
Proof.
  intros event o.
  destruct (create_writes_one_item (H := example_host) (H0 := example_service)
              example_runtime
              event table_of_U1 "U1" "Buy milk" buy_milk
              eq_refl ltac:(discriminate) ltac:(discriminate)
              eq_refl eq_refl ltac:(discriminate) eq_refl
              ltac:(split; vm_compute; discriminate)
              ltac:(vm_compute; discriminate))
    as (item & _ & _ & _ & _ & _ & Hlook & Hframe).
  exists item. split; [exact Hlook |].
  subst o. rewrite Hframe by discriminate. reflexivity.
Defined.

Lemma list_returns_example :
  let event := request (JStr "U1") JNull JNull in
  exists todos,
    result (run dynamodb example_runtime (getTodosHandler event) table_of_U1)
    = inr (listed (JArr todos))
    /\ JObj milk_item ∈ todos.
Proof.
  intros event.
  destruct (list_returns_the_partition (H := example_host)
              (H0 := example_service) example_runtime
              event table_of_U1 "U1" eq_refl ltac:(discriminate)
              ltac:(vm_compute; discriminate))
    as (todos & Hres & _ & _ & _ & _ & _ & _ & Hexact & _).
  exists todos. split; [exact Hres |].
  apply (Hexact eq_refl ltac:(vm_compute; discriminate)).
  exists "X", milk_item. split; reflexivity.
Defined.

Lemma delete_removes_example :
  let event := request (JStr "U1") todo_X JNull in
  let o := run dynamodb example_runtime (deleteTodoHandler event) table_of_U1 in
  result o = inr deleted /\ final o !! ("U1", "X") = None.
Proof.
  intros event o.
  destruct (delete_removes_exactly (H := example_host) (H0 := example_service)
              example_runtime
              event table_of_U1 "U1" "X" milk_item
              eq_refl ltac:(discriminate) eq_refl ltac:(discriminate) eq_refl
              ltac:(split; vm_compute; discriminate))
    as (Hres & _ & Hgone & _).
  split; [exact Hres | exact Hgone].
Defined.


Lemma create_then_delete_example :
  let first :=
    run dynamodb example_runtime
      (createTodoHandler (request (JStr "U1") JNull (body_of buy_milk)))
      table_of_U1 in
  let second :=
    run dynamodb later_runtime
      (deleteTodoHandler (request (JStr "U1") todo_new JNull)) (final first) in
  result second = inr deleted /\ final second = table_of_U1.
Proof.
  exact (proj2
           (create_then_delete_restores (H := example_host)
              (H0 := example_service)
              example_runtime later_runtime
              (request (JStr "U1") JNull (body_of buy_milk))
              (request (JStr "U1") todo_new JNull) table_of_U1
              "U1" "Buy milk" buy_milk
              eq_refl ltac:(discriminate) ltac:(discriminate)
              eq_refl eq_refl ltac:(discriminate) eq_refl
              ltac:(split; vm_compute; discriminate)
              ltac:(vm_compute; discriminate)
              eq_refl eq_refl eq_refl)).
Defined.


Lemma table_of_U1_well_keyed : well_keyed table_of_U1.
Proof.
  intros u t it Hlook. unfold table_of_U1 in Hlook.
  apply lookup_singleton_Some in Hlook as [[= <- <-] <-].
  split; reflexivity.
Defined.

Lemma items_stay_example :
  well_keyed
    (final (run dynamodb example_runtime
              (updateTodoHandler (request (JStr "U2") todo_X (body_of buy_milk)))
              table_of_U1)).
Proof.
  exact (proj1 (proj2 (items_stay_with_their_owner (H := example_host)
                         (H0 := example_service)
                         example_runtime
                         (request (JStr "U2") todo_X (body_of buy_milk))
                         table_of_U1 table_of_U1_well_keyed))).
Defined.

Lemma setup_example :
  let created := run_admin account_step createTodosTable ∅ in
  fst created = inr tt
  /\ snd created !! "Todos" = Some ∅
  /\ run_admin account_step createTodosTable (snd created) = (inr tt, snd created).
Proof.
  destruct (setup_is_idempotent (H := example_host) "Todos" ∅ eq_refl)
    as (Hres & Hlook & _ & Hagain & _).
  split; [exact Hres |]. split; [exact Hlook | exact Hagain].
Defined.

Lemma createTodo_example :
  run_ui signed_in agreeing (createTodo typed_in)
  = mkUiOutcome (inr (mkElements "" "" "" ""))
      [(POST, create_call "Buy milk" "two litres" "header.payload.signature")] 1.
Proof.
  exact (proj2 (createTodo_outcomes signed_in agreeing typed_in)
           ltac:(discriminate)).
Defined.

Lemma created_body_example :
  let input := create_call "Buy milk" "two litres" "header.payload.signature" in
  let event := request (JStr "U1") JNull (body_of milk_with_note) in
  exists item,
    sent (run dynamodb example_runtime (createTodoHandler event) ∅)
    = [PutCommand (put_params item)]
    /\ assoc "title" item = JStr "Buy milk"
    /\ assoc "description" item = JStr "two litres".
Proof.
  intros input event.
  destruct (created_body_passes_the_checks (H := example_host)
              dynamodb example_runtime signed_in agreeing typed_in POST input
              event ∅ ltac:(left; reflexivity) eq_refl eq_refl)
    as (_ & item & Hsent & Htitle & Hdesc & _).
  exists item. auto.
Defined.

Lemma toggled_status_example :
  let input := status_call "X" "completed" "header.payload.signature" in
  let event := request (JStr "U1") todo_X (body_of complete_it) in
  exists c,
    sent (run dynamodb example_runtime (updateTodoHandler event) table_of_U1) = [c]
    /\ named_attributes c = [JStr "status"].
Proof.
  intros input event.
  destruct (toggled_status_passes_the_checks (H := example_host)
              dynamodb example_runtime signed_in agreeing
              "X" (JStr "pending") typed_in PUT input event table_of_U1
              ltac:(left; reflexivity) eq_refl eq_refl eq_refl)
    as (_ & _ & _ & _ & _ & Hsent).
  exact Hsent.
Defined.

Lemma toggle_flips_example :
  let input := status_call "X" "completed" "header.payload.signature" in
  let event := request (JStr "U1") todo_X (body_of complete_it) in
  exists item',
    final (run dynamodb example_runtime (updateTodoHandler event) table_of_U1)
    !! ("U1", "X") = Some item'
    /\ assoc "status" item' = JStr "completed".
Proof.
  intros input event.
  destruct (toggle_flips_the_stored_status (H := example_host)
              (H0 := example_service) example_runtime
              signed_in agreeing table_of_U1 "U1" "X" "pending" milk_item
              typed_in PUT input event
              eq_refl eq_refl ltac:(left; reflexivity) ltac:(left; reflexivity)
              eq_refl ltac:(discriminate) eq_refl ltac:(discriminate) eq_refl
              ltac:(split; vm_compute; discriminate)
              ltac:(vm_compute; discriminate))
    as (item' & _ & Hlook & Hstatus & _).
  exists item'. auto.
Defined.

Lemma mutations_example :
  run_ui signed_in agreeing (deleteTodo "X" typed_in)
  = mkUiOutcome (inr typed_in)
      [(DEL, delete_call "X" "header.payload.signature")] 1.
Proof.
  exact (proj2 (proj2 (proj2
           (mutations_refresh_only_on_success signed_in agreeing
              "X" (JStr "pending") typed_in)))).
Defined.

End MoreExamples.
